(** * noc-watch: the WiFi quality monitor, embedded and verified

    A shallow embedding of the monitor of [main.go], in the version with the
    headless mode and the log file.  (The older version in the repository
    has neither; its loop is the TUI branch of this one without the file
    ticker, with the same recording steps and the same chart loops.)  The
    external world -- the
    commands started with [exec.Command], the files, standard output, the
    queue of the TUI application, the clock and the environment -- is an
    explicit [World] threaded through a state monad.  A run-time panic
    (a nil receiver, an index out of range, and, in this model, a zero
    divisor) is the failure of that monad. *)

From Stdlib Require Import ZArith String Ascii Floats DecimalString Lia.
From stdpp Require Import base option list sorting gmap strings.

Open Scope Z_scope.

(** ** What the Go runtime and library provide *)

Module Go.

(** [int] and [time.Duration] are 64-bit signed integers. *)
Definition wrap64 (z : Z) : Z := (z + 2 ^ 63) mod 2 ^ 64 - 2 ^ 63.

(** [x++] on an [int]. *)
Definition incr (x : Z) : Z := wrap64 (x + 1).

(** [len(s)] of a slice. *)
Definition len {A} (s : list A) : Z := Z.of_nat (length s).

(** [float64(n)] for an [int]: the nearest binary64 number. *)
Definition float64 (n : Z) : float :=
  SF2Prim (SpecFloat.binary_normalize 53 1024 n 0 false).

(** [float64(a) / float64(b)].  IEEE division does not trap in Go; the
    model reports a zero divisor as [None], so that "no division by zero"
    is a property of the callers that can be proved. *)
Definition fdiv (a b : Z) : option float :=
  if b =? 0 then None else Some (float64 a / float64 b)%float.

Definition nl : string := String (ascii_of_nat 10) EmptyString.

(** The verbs [%v] on a [bool] and [%d] on an [int]. *)
Definition fmtBool (b : bool) : string := if b then "true" else "false".
Definition fmtInt (n : Z) : string := NilZero.string_of_int (Z.to_int n).

(** [strings.Contains(s, substr)]. *)
Definition Contains (s substr : string) : bool :=
  match String.index 0 substr s with Some _ => true | None => false end.

Definition second : Z := 1000000000.
Definition millisecond : Z := 1000000.

(** Library functions whose text is not part of the repository and on
    whose details no property below depends. *)
Record Library := {
  (** [t.Format("2006-01-02 15:04:05")] *)
  fmtDateTime : Z -> string;
  (** [t.Format("15:04:05")] *)
  fmtClock : Z -> string;
  (** [%v] on a [time.Duration] *)
  fmtDuration : Z -> string;
  (** [%.2f] on a [float64] *)
  fmtFloat2 : float -> string;
  (** The scan of the output of ping in [measureLatency]: the first line
      containing "avg" whose first field after "=" is accepted by
      [strconv.ParseFloat], as a [time.Duration] in milliseconds;
      [None] when no line qualifies. *)
  parseAvgLatency : string -> option Z
}.

End Go.
Import Go.

(** ** The external world *)

(** What an external call answers: its error if any, the bytes it printed,
    how long it took and, for a write that failed, how many bytes of the
    text it had written before the error ([n] of [Write], which is less
    than or equal to the length of the text). *)
Record Reply := {
  failure : option string;
  output : string;
  took : Z;
  written : nat
}.

Inductive Call :=
| Exec (argv : list string)
| OpenFile (path : string)
| WriteFile (path data : string).

(** The text of the three widgets in one queued update of the TUI. *)
Record Screen := {
  statsText : string;
  chartText : string;
  logText : string
}.

Record World := {
  clock : Z;                     (* time.Now(), in nanoseconds *)
  environ : string -> string;    (* os.Getenv *)
  answers : nat -> Reply;        (* the answer to the n-th external call *)
  calls : list Call;             (* the external calls so far, oldest first *)
  files : gmap string string;    (* the file system *)
  stdout : list string;          (* what fmt.Printf printed, oldest first *)
  uiQueue : list Screen          (* updates handed to QueueUpdateDraw *)
}.

Definition tick (d : Z) (σ : World) : World :=
  {| clock := clock σ + d; environ := environ σ; answers := answers σ;
     calls := calls σ; files := files σ; stdout := stdout σ;
     uiQueue := uiQueue σ |}.

Definition record_call (c : Call) (σ : World) : World :=
  {| clock := clock σ; environ := environ σ; answers := answers σ;
     calls := calls σ ++ [c]; files := files σ; stdout := stdout σ;
     uiQueue := uiQueue σ |}.

Definition set_files (f : gmap string string) (σ : World) : World :=
  {| clock := clock σ; environ := environ σ; answers := answers σ;
     calls := calls σ; files := f; stdout := stdout σ;
     uiQueue := uiQueue σ |}.

Definition print (s : string) (σ : World) : World :=
  {| clock := clock σ; environ := environ σ; answers := answers σ;
     calls := calls σ; files := files σ; stdout := stdout σ ++ [s];
     uiQueue := uiQueue σ |}.

Definition enqueue (s : Screen) (σ : World) : World :=
  {| clock := clock σ; environ := environ σ; answers := answers σ;
     calls := calls σ; files := files σ; stdout := stdout σ;
     uiQueue := uiQueue σ ++ [s] |}.

(** The world in which the [n]-th external call answers [r]. *)
Definition with_answer (n : nat) (r : Reply) (σ : World) : World :=
  {| clock := clock σ; environ := environ σ;
     answers := fun k => if Nat.eqb k n then r else answers σ k;
     calls := calls σ; files := files σ; stdout := stdout σ;
     uiQueue := uiQueue σ |}.

(** ** The monad of the program: state, and [None] for a panic *)

Definition M (A : Type) : Type := World -> option (A * World).

#[global] Instance M_ret : MRet M := fun A a σ => Some (a, σ).

#[global] Instance M_bind : MBind M := fun A B k m σ =>
  match m σ with
  | Some (a, σ') => k a σ'
  | None => None
  end.

Definition panic {A} : M A := fun _ => None.

(** A Go [error]: [nil] or a value, printed with [%v] as its message. *)
Definition error : Type := option string.

(** [if err != nil { return err }] around the rest of a function. *)
Definition orReturn (m : M error) (k : M error) : M error :=
  err ← m; match err with Some _ => mret err | None => k end.
Notation "'try!' m ; k" := (orReturn m k)
  (at level 20, m at level 100, k at level 200, only parsing).

Definition liftO {A} (o : option A) : M A :=
  match o with Some a => mret a | None => panic end.

(** [s[i]]: panics out of range. *)
Definition index {A} (s : list A) (i : Z) : M A :=
  if (0 <=? i) then liftO (s !! Z.to_nat i) else panic.

Definition Now : M Z := fun σ => Some (clock σ, σ).
Definition Since (start : Z) : M Z := fun σ => Some (clock σ - start, σ).
Definition Sleep (d : Z) : M unit := fun σ => Some (tt, tick d σ).
Definition Getenv (key : string) : M string :=
  fun σ => Some (environ σ key, σ).

(** One external call: it is logged, answered by the world, and takes the
    time the answer says. *)
Definition external (c : Call) : M Reply :=
  fun σ => let r := answers σ (length (calls σ)) in
           Some (r, tick (took r) (record_call c σ)).

(** [exec.Command(argv...).Run()] and [.Output()]. *)
Definition cmdRun (argv : list string) : M error :=
  r ← external (Exec argv); mret (failure r).

Definition cmdOutput (argv : list string) : M (string * error) :=
  r ← external (Exec argv); mret (output r, failure r).

(** [os.OpenFile(path, O_APPEND|O_CREATE|O_WRONLY, 0644)]: the file exists
    afterwards. *)
Definition openAppend (path : string) : M error :=
  r ← external (OpenFile path);
  match failure r with
  | Some e => mret (Some e)
  | None => fun σ =>
      Some (None,
            set_files (<[path := default EmptyString (files σ !! path)]> (files σ)) σ)
  end.

(** [fmt.Fprintf(file, ...)] on a file opened for appending: one [Write]
    of the formatted text.  A write that succeeds appends the text; a write
    that fails may have appended its first bytes, as many as it reports. *)
Definition Fprintf (path data : string) : M error :=
  r ← external (WriteFile path data);
  ((fun σ =>
      let old := default EmptyString (files σ !! path) in
      match failure r with
      | Some e =>
          Some (Some e,
                set_files
                  (<[path := old +:+ substring 0 (written r) data]> (files σ)) σ)
      | None =>
          Some (None, set_files (<[path := old +:+ data]> (files σ)) σ)
      end) : M error).

Definition Printf (s : string) : M unit := fun σ => Some (tt, print s σ).

(** [app.QueueUpdateDraw(f)] where [f] sets the text of the three views.
    A nil [app] panics. *)
Definition QueueUpdateDraw (app : option nat) (s : Screen) : M unit :=
  match app with
  | Some _ => fun σ => Some (tt, enqueue s σ)
  | None => panic
  end.

(** ** The data of the monitor *)

Record WiFiTest := {
  DHCPRenewTime : Z;
  IPv4Connectivity : bool;
  IPv6Connectivity : bool;
  Latency : Z;
  Success : bool;
  Timestamp : Z
}.

Record WiFiMonitor := {
  dhcpTests : list WiFiTest;
  pingTests : list WiFiTest;
  successCount : Z;
  totalCount : Z;
  app : option nat;
  statsView : option nat;
  chartView : option nat;
  logView : option nat;
  wifiInterface : string;
  logFile : string;
  headless : bool
}.

Definition NewWiFiMonitor : M WiFiMonitor :=
  wifiInterface ← Getenv "WIFI_INTERFACE";
  let wifiInterface :=
    if String.eqb wifiInterface EmptyString then "wlan0"%string else wifiInterface in
  logFile ← Getenv "LOG_FILE";
  let logFile :=
    if String.eqb logFile EmptyString then "noc-watch.log"%string else logFile in
  headless ← Getenv "HEADLESS";
  let headless := String.eqb headless "true" in
  mret {| dhcpTests := []; pingTests := []; successCount := 0; totalCount := 0;
         app := None; statsView := None; chartView := None; logView := None;
         wifiInterface := wifiInterface; logFile := logFile;
         headless := headless |}.

(** ** The probes *)

Definition runDHCPRenew (w : WiFiMonitor) : M (Z * bool) :=
  cmdRun ["sudo"; "dhclient"; "-r"; wifiInterface w]%string ;;
  Sleep (2 * second) ;;
  start ← Now;
  err ← cmdRun ["sudo"; "dhclient"; wifiInterface w]%string;
  match err with
  | Some _ => mret (0, false)
  | None =>
      '(out, err) ← cmdOutput ["cat"; "/etc/resolv.conf"]%string;
      match err with
      | Some _ => mret (0, false)
      | None =>
          if negb (Contains out "nameserver") then mret (0, false)
          else d ← Since start; mret (d, true)
      end
  end.

Definition checkIPv4Connectivity (w : WiFiMonitor) : M bool :=
  err ← cmdRun ["ping"; "-I"; wifiInterface w; "-c"; "1"; "-W"; "5"; "8.8.8.8"]%string;
  mret (match err with None => true | Some _ => false end).

Definition checkIPv6Connectivity (w : WiFiMonitor) : M bool :=
  err ← cmdRun ["ping6"; "-I"; wifiInterface w; "-c"; "1"; "-W"; "5";
                 "2001:4860:4860::8888"]%string;
  mret (match err with None => true | Some _ => false end).

Section Program.

Variable lib : Library.

Definition measureLatency (w : WiFiMonitor) : M Z :=
  start ← Now;
  '(out, err) ← cmdOutput ["ping"; "-I"; wifiInterface w; "-c"; "3"; "-W"; "5";
                            "8.8.8.8"]%string;
  match err with
  | Some _ => mret 0
  | None =>
      match parseAvgLatency lib out with
      | Some latency => mret latency
      | None => Since start
      end
  end.

Definition runTest (w : WiFiMonitor) : M WiFiTest :=
  timestamp ← Now;
  '(dhcpTime, dhcpSuccess) ← runDHCPRenew w;
  ipv4 ← checkIPv4Connectivity w;
  ipv6 ← checkIPv6Connectivity w;
  latency ← measureLatency w;
  mret {| DHCPRenewTime := dhcpTime;
         IPv4Connectivity := ipv4;
         IPv6Connectivity := ipv6;
         Latency := latency;
         Success := dhcpSuccess && ipv4 && (0 <? latency);
         Timestamp := timestamp |}.

Definition runConnectivityTest (w : WiFiMonitor) : M WiFiTest :=
  timestamp ← Now;
  ipv4 ← checkIPv4Connectivity w;
  ipv6 ← checkIPv6Connectivity w;
  latency ← measureLatency w;
  mret {| DHCPRenewTime := 0;
         IPv4Connectivity := ipv4;
         IPv6Connectivity := ipv6;
         Latency := latency;
         Success := ipv4 && (0 <? latency);
         Timestamp := timestamp |}.

(** ** Success rates *)

(** The loop [for _, t := range tests { if t.Success { n++ } }]. *)
Definition countSuccesses (tests : list WiFiTest) : Z :=
  fold_left (fun n t => if Success t then incr n else n) tests 0.

(** [var rate float64; if total > 0 { rate = float64(succ) / float64(total) * 100 }]:
    the overall rate, written three times in the source (in [updateUI], and
    as a closure in [writeResultsToFile]). *)
Definition overallSuccessRate (w : WiFiMonitor) : option float :=
  if 0 <? totalCount w then
    q ← fdiv (successCount w) (totalCount w); Some (q * 100)%float
  else Some 0%float.

(** The rate of one class, over its history. *)
Definition classSuccessRate (tests : list WiFiTest) : option float :=
  if 0 <? len tests then
    let successes := countSuccesses tests in
    q ← fdiv successes (len tests); Some (q * 100)%float
  else Some 0%float.

(** ** The dashboard *)

(** The rows of the chart: [status] and the two [fmt.Sprintf]. *)
Definition statusMark (t : WiFiTest) : string :=
  if Success t then "[green]o" else "[red]x".

Definition dhcpChartRow (i : Z) (test : WiFiTest) : string :=
  "  [" +:+ fmtInt (i + 1) +:+ "] " +:+ statusMark test +:+ " DHCP: "
  +:+ fmtDuration lib (DHCPRenewTime test) +:+ nl.

Definition pingChartRow (i : Z) (test : WiFiTest) : string :=
  "  [" +:+ fmtInt (i + 1) +:+ "] " +:+ statusMark test +:+ " IPv4: "
  +:+ fmtBool (IPv4Connectivity test) +:+ " IPv6: "
  +:+ fmtBool (IPv6Connectivity test) +:+ " Latency: "
  +:+ fmtDuration lib (Latency test) +:+ nl.

(** [for i, test := range tests { if i >= 10 { break }; chartText += row }] *)
Fixpoint chartLoop (row : Z -> WiFiTest -> string) (i : Z)
    (tests : list WiFiTest) (chartText : string) : string :=
  match tests with
  | [] => chartText
  | test :: rest =>
      if 10 <=? i then chartText
      else chartLoop row (i + 1) rest (chartText +:+ row i test)
  end.

Definition dhcpChart (tests : list WiFiTest) (chartText : string) : string :=
  if len tests =? 0 then
    chartText +:+ "  [yellow]Waiting for first DHCP test...[white]" +:+ nl
  else chartLoop dhcpChartRow 0 tests chartText.

Definition pingChart (tests : list WiFiTest) (chartText : string) : string :=
  if len tests =? 0 then
    chartText +:+ "  [yellow]Waiting for first ping test...[white]" +:+ nl
  else chartLoop pingChartRow 0 tests chartText.

(** [statsText], [chartText] and [logText] of [updateUI]. *)
Definition renderStats (currentTime : string) (w : WiFiMonitor)
    (successRate dhcpSuccessRate pingSuccessRate : float) : string :=
  "[white]WiFi Quality Monitor - NOC Watch -" +:+ nl
  +:+ "Current Time: [cyan]" +:+ currentTime +:+ "[white]" +:+ nl
  +:+ "Total Tests: " +:+ fmtInt (totalCount w)
  +:+ " | [green]Success: " +:+ fmtInt (successCount w)
  +:+ "[white] | [red]Failure: "
  +:+ fmtInt (wrap64 (totalCount w - successCount w)) +:+ "[white]" +:+ nl
  +:+ "Success Rate: [yellow]" +:+ fmtFloat2 lib successRate +:+ "%[white]" +:+ nl
  +:+ "DHCP Success Rate: [yellow]" +:+ fmtFloat2 lib dhcpSuccessRate
  +:+ "%[white]" +:+ nl
  +:+ "Ping Success Rate: [yellow]" +:+ fmtFloat2 lib pingSuccessRate
  +:+ "%[white]" +:+ nl.

Definition renderChart (w : WiFiMonitor) : string :=
  let chartText := "Test Results:" +:+ nl +:+ nl in
  let chartText :=
    chartText +:+ "[yellow]DHCP Test Results (Every 5 minutes):[white]" +:+ nl in
  let chartText := dhcpChart (dhcpTests w) chartText in
  let chartText :=
    chartText +:+ nl +:+ "[yellow]Ping Test Results (Every 1 minute):[white]" +:+ nl in
  pingChart (pingTests w) chartText.

Definition renderLog (w : WiFiMonitor) : M string :=
  let logText := "Latest Test Results:" +:+ nl +:+ nl in
  let logText := logText +:+ "[yellow]Latest DHCP Test:[white]" +:+ nl in
  logText ←
    (if 0 <? len (dhcpTests w) then
       latest ← index (dhcpTests w) (len (dhcpTests w) - 1);
       mret (logText
             +:+ "Time: " +:+ fmtClock lib (Timestamp latest) +:+ nl
             +:+ "DHCP Renew: " +:+ fmtDuration lib (DHCPRenewTime latest) +:+ nl
             +:+ "Success: " +:+ fmtBool (Success latest) +:+ nl)
     else mret (logText +:+ "[yellow]No DHCP tests completed yet.[white]" +:+ nl));
  let logText := logText +:+ nl +:+ "[yellow]Latest Ping Test:[white]" +:+ nl in
  if 0 <? len (pingTests w) then
    latest ← index (pingTests w) (len (pingTests w) - 1);
    mret (logText
          +:+ "Time: " +:+ fmtClock lib (Timestamp latest) +:+ nl
          +:+ "IPv4: " +:+ fmtBool (IPv4Connectivity latest) +:+ nl
          +:+ "IPv6: " +:+ fmtBool (IPv6Connectivity latest) +:+ nl
          +:+ "Latency: " +:+ fmtDuration lib (Latency latest) +:+ nl
          +:+ "Success: " +:+ fmtBool (Success latest) +:+ nl)
  else mret (logText +:+ "[yellow]No ping tests completed yet.[white]" +:+ nl).

Definition updateUI (w : WiFiMonitor) : M unit :=
  if headless w then mret tt
  else
    successRate ← liftO (overallSuccessRate w);
    dhcpSuccessRate ← liftO (classSuccessRate (dhcpTests w));
    pingSuccessRate ← liftO (classSuccessRate (pingTests w));
    now ← Now;
    let currentTime := fmtDateTime lib now in
    let statsText :=
      renderStats currentTime w successRate dhcpSuccessRate pingSuccessRate in
    let chartText := renderChart w in
    logText ← renderLog w;
    QueueUpdateDraw (app w)
      {| statsText := statsText; chartText := chartText; logText := logText |}.

(** ** The log file *)

(** The texts of the [fmt.Fprintf] calls of [writeResultsToFile]. *)
Definition headerLine (currentTime : string) : string :=
  nl +:+ "=== WiFi Quality Test Results - " +:+ currentTime +:+ " ===" +:+ nl.

Definition dhcpLine (latest : WiFiTest) : string :=
  "DHCP Test: Success=" +:+ fmtBool (Success latest)
  +:+ ", Time=" +:+ fmtDuration lib (DHCPRenewTime latest) +:+ nl.

Definition pingLine (latest : WiFiTest) : string :=
  "Ping Test: Success=" +:+ fmtBool (Success latest)
  +:+ ", IPv4=" +:+ fmtBool (IPv4Connectivity latest)
  +:+ ", IPv6=" +:+ fmtBool (IPv6Connectivity latest)
  +:+ ", Latency=" +:+ fmtDuration lib (Latency latest) +:+ nl.

Definition totalsLine (w : WiFiMonitor) (rate : float) : string :=
  "Total Tests: " +:+ fmtInt (totalCount w)
  +:+ ", Success: " +:+ fmtInt (successCount w)
  +:+ ", Success Rate: " +:+ fmtFloat2 lib rate +:+ "%" +:+ nl.

Definition dhcpRateLine (rate : float) : string :=
  "DHCP Success Rate: " +:+ fmtFloat2 lib rate +:+ "%" +:+ nl.

Definition pingRateLine (rate : float) : string :=
  "Ping Success Rate: " +:+ fmtFloat2 lib rate +:+ "%" +:+ nl.

Definition delimiterLine : string :=
  "==========================================" +:+ nl.

(** [file.Close()] is deferred and its result discarded; the model leaves
    it out. *)
Definition writeResultsToFile (w : WiFiMonitor) : M error :=
  try! openAppend (logFile w);
  now ← Now;
  let currentTime := fmtDateTime lib now in
  try! Fprintf (logFile w) (headerLine currentTime);
  try! (if 0 <? len (dhcpTests w) then
          latest ← index (dhcpTests w) (len (dhcpTests w) - 1);
          Fprintf (logFile w) (dhcpLine latest)
        else mret None);
  try! (if 0 <? len (pingTests w) then
          latest ← index (pingTests w) (len (pingTests w) - 1);
          Fprintf (logFile w) (pingLine latest)
        else mret None);
  dhcpSuccessRate ← liftO (classSuccessRate (dhcpTests w));
  pingSuccessRate ← liftO (classSuccessRate (pingTests w));
  successRate ← liftO (overallSuccessRate w);
  try! Fprintf (logFile w) (totalsLine w successRate);
  try! Fprintf (logFile w) (dhcpRateLine dhcpSuccessRate);
  try! Fprintf (logFile w) (pingRateLine pingSuccessRate);
  Fprintf (logFile w) delimiterLine.

(** ** The scheduling loop *)

Inductive Ticker := dhcpTicker | pingTicker | uiTicker | fileTicker.

(** [w.dhcpTests = append(w.dhcpTests, test); w.totalCount++;
    if test.Success { w.successCount++ }], and the same on [w.pingTests]. *)
Definition recordDHCP (test : WiFiTest) (w : WiFiMonitor) : WiFiMonitor :=
  {| dhcpTests := dhcpTests w ++ [test];
     pingTests := pingTests w;
     successCount := if Success test then incr (successCount w) else successCount w;
     totalCount := incr (totalCount w);
     app := app w; statsView := statsView w; chartView := chartView w;
     logView := logView w; wifiInterface := wifiInterface w;
     logFile := logFile w; headless := headless w |}.

Definition recordPing (test : WiFiTest) (w : WiFiMonitor) : WiFiMonitor :=
  {| dhcpTests := dhcpTests w;
     pingTests := pingTests w ++ [test];
     successCount := if Success test then incr (successCount w) else successCount w;
     totalCount := incr (totalCount w);
     app := app w; statsView := statsView w; chartView := chartView w;
     logView := logView w; wifiInterface := wifiInterface w;
     logFile := logFile w; headless := headless w |}.

(** One turn of [for { select { ... } }]: the case of the ticker that fired.
    The headless branch has no [uiTicker]; there that case does nothing. *)
Definition onTick (t : Ticker) (w : WiFiMonitor) : M WiFiMonitor :=
  match t with
  | dhcpTicker =>
      test ← runTest w;
      let w := recordDHCP test w in
      updateUI w ;; mret w
  | pingTicker =>
      test ← runConnectivityTest w;
      let w := recordPing test w in
      updateUI w ;; mret w
  | uiTicker =>
      if headless w then mret w else updateUI w ;; mret w
  | fileTicker =>
      err ← writeResultsToFile w;
      match err with
      | Some e => Printf ("Error writing to file: " +:+ e +:+ nl)
      | None => mret tt
      end ;;
      mret w
  end.

(** The loop never ends; [loop fired w] runs it for the tickers that fired,
    in the order in which [select] took them. *)
Fixpoint loop (fired : list Ticker) (w : WiFiMonitor) : M WiFiMonitor :=
  match fired with
  | [] => mret w
  | t :: rest => w ← onTick t w; loop rest w
  end.

Definition startMonitoring (fired : list Ticker) (w : WiFiMonitor) : M WiFiMonitor :=
  if headless w then loop fired w
  else updateUI w ;; loop fired w.

(** [main] up to the start of the monitoring: the monitor, and in TUI mode
    the application, the three views and their first content, which is the
    first entry of the queue of the application. *)
Definition initialScreen (currentTime : string) : Screen :=
  {| statsText :=
       "[white]WiFi Quality Monitor" +:+ nl
       +:+ "Current Time: [cyan]" +:+ currentTime +:+ "[white]" +:+ nl
       +:+ "Total Tests: 0 | [green]Success: 0[white] | [red]Failure: 0[white]" +:+ nl
       +:+ "Success Rate: [yellow]0.00%[white]" +:+ nl;
     chartText :=
       "Test Results:" +:+ nl +:+ nl
       +:+ "[yellow]DHCP Test Results (Every 5 minutes):[white]" +:+ nl
       +:+ "  [yellow]Waiting for first DHCP test...[white]" +:+ nl +:+ nl
       +:+ "[yellow]Ping Test Results (Every 1 minute):[white]" +:+ nl
       +:+ "  [yellow]Waiting for first ping test...[white]";
     logText :=
       "Latest Test Results:" +:+ nl +:+ nl
       +:+ "[yellow]Latest DHCP Test:[white]" +:+ nl
       +:+ "[yellow]No DHCP tests completed yet.[white]" +:+ nl +:+ nl
       +:+ "[yellow]Latest Ping Test:[white]" +:+ nl
       +:+ "[yellow]No ping tests completed yet.[white]" |}.

Definition withViews (w : WiFiMonitor) : WiFiMonitor :=
  {| dhcpTests := dhcpTests w; pingTests := pingTests w;
     successCount := successCount w; totalCount := totalCount w;
     app := Some 0%nat; statsView := Some 1%nat; chartView := Some 2%nat;
     logView := Some 3%nat; wifiInterface := wifiInterface w;
     logFile := logFile w; headless := headless w |}.

(** [main fired] is the monitor once the tickers [fired] have been served.
    In TUI mode the monitoring is a goroutine ([go monitor.startMonitoring()])
    beside the event loop of the terminal library,
    [app.SetRoot(flex, true).Run()], whose text is not in the repository and
    which is not modelled: when [Run] returns, with an error ([panic(err)])
    or without, the program ends and no further ticker is served.  So the
    end of a run, a panic of [main] at the start included, is the end of
    [fired]; [None] is a panic of the monitoring itself. *)
Definition main (fired : list Ticker) : M WiFiMonitor :=
  monitor ← NewWiFiMonitor;
  if negb (headless monitor) then
    let monitor := withViews monitor in
    now ← Now;
    (fun σ => Some (tt, enqueue (initialScreen (fmtDateTime lib now)) σ)) ;;
    startMonitoring fired monitor
  else startMonitoring fired monitor.

End Program.

(** ** Notions used in the statements *)

(** In TUI mode the application exists; [main] sees to it. *)
Definition uiReady (w : WiFiMonitor) : bool :=
  headless w || match app w with Some _ => true | None => false end.

(** The number of successful results in a history. *)
Definition successes (tests : list WiFiTest) : nat :=
  length (List.filter Success tests).

(** The counters agree with the histories, as Go evaluates
    [totalCount == len(dhcpTests) + len(pingTests)] on its [int]. *)
Definition consistent (w : WiFiMonitor) : Prop :=
  totalCount w = wrap64 (len (dhcpTests w) + len (pingTests w)) /\
  successCount w =
    wrap64 (Z.of_nat (successes (dhcpTests w) + successes (pingTests w))).

(** The number of results recorded so far. *)
Definition recorded (w : WiFiMonitor) : nat :=
  (length (dhcpTests w) + length (pingTests w))%nat.

(** The fields of the monitor other than the histories and the counters. *)
Definition settings (w : WiFiMonitor) :=
  (app w, statsView w, chartView w, logView w, wifiInterface w, logFile w,
   headless w).

(** The command that asks for a new lease: [sudo dhclient <interface>]. *)
Definition isRenew (c : Call) : bool :=
  match c with
  | Exec [a; b; _] => String.eqb a "sudo" && String.eqb b "dhclient"
  | _ => false
  end.

(** The external calls made between two worlds. *)
Definition newCalls (σ σ' : World) : list Call :=
  drop (length (calls σ)) (calls σ').


(** The window the specification asks of a history: its [n] most recent
    entries, the oldest of them first. *)
Definition latest (n : nat) (history : list WiFiTest) : list WiFiTest :=
  drop (length history - n) history.

(** The line of the most recent result of a class, and nothing while the
    class has no result. *)
Definition latestLine (line : WiFiTest -> string) (tests : list WiFiTest) : string :=
  match last tests with
  | Some test => line test
  | None => EmptyString
  end.

(** The block that one emission appends to the log file. *)
Definition logBlock (lib : Library) (w : WiFiMonitor) (now : Z)
    (rate dhcpRate pingRate : float) : string :=
  headerLine (fmtDateTime lib now)
  +:+ latestLine (dhcpLine lib) (dhcpTests w)
  +:+ latestLine (pingLine lib) (pingTests w)
  +:+ totalsLine lib w rate
  +:+ dhcpRateLine lib dhcpRate
  +:+ pingRateLine lib pingRate
  +:+ delimiterLine.

(** The block as the format describes it, with a line for the most recent
    result of each class. *)
Definition fullLogBlock (lib : Library) (w : WiFiMonitor) (now : Z)
    (rate dhcpRate pingRate : float) (text : string) : Prop :=
  exists lease connectivity,
    last (dhcpTests w) = Some lease /\
    last (pingTests w) = Some connectivity /\
    text = headerLine (fmtDateTime lib now)
           +:+ dhcpLine lib lease
           +:+ pingLine lib connectivity
           +:+ totalsLine lib w rate
           +:+ dhcpRateLine lib dhcpRate
           +:+ pingRateLine lib pingRate
           +:+ delimiterLine.

(** The computation returns in this world: it does not panic. *)
Definition returns {A} (m : M A) (σ : World) : Prop :=
  exists a σ', m σ = Some (a, σ').

(** The text of a file; a missing file has none. *)
Definition content (path : string) (σ : World) : string :=
  default EmptyString (files σ !! path).

(** ** The scan of the output of ping *)

(** [strings.Split(s, sep)] for a separator of one byte: the fields between
    the separators, one more than there are separators. *)
Fixpoint Split (s : string) (sep : ascii) : list string :=
  match s with
  | EmptyString => [EmptyString]
  | String a rest =>
      if Ascii.eqb a sep then EmptyString :: Split rest sep
      else match Split rest sep with
           | field :: fields => String a field :: fields
           | [] => [String a EmptyString]
           end
  end.

(** The library functions of the scan, whose text is not in the repository. *)
Record Strconv := {
  (** [strings.TrimSpace] *)
  TrimSpace : string -> string;
  (** [strconv.ParseFloat(s, 64)]; [None] for an error *)
  ParseFloat : string -> option float;
  (** [time.Duration(f)], the conversion of a [float64] to an [int64] *)
  toDuration : float -> Z
}.

(** The lines 123 to 134 of [measureLatency]: the loop over the lines of the
    output.  The outer [None] is an index out of range, the inner one the
    loop that ends without a [return]. *)
Fixpoint scanLines (sc : Strconv) (lines : list string) : option (option Z) :=
  match lines with
  | [] => Some None
  | line :: rest =>
      if Contains line "avg" then
        let parts := Split line "="%char in
        if 1 <? len parts then
          part ← parts !! 1%nat;
          field ← Split part " "%char !! 0%nat;
          let latencyStr := TrimSpace sc field in
          match ParseFloat sc latencyStr with
          | Some latency =>
              Some (Some (toDuration sc (latency * float64 millisecond)%float))
          | None => scanLines sc rest
          end
        else scanLines sc rest
      else scanLines sc rest
  end.

Definition scanOutput (sc : Strconv) (out : string) : option (option Z) :=
  scanLines sc (Split out (ascii_of_nat 10)).

(** The library whose scan of the output of ping is the one of the source
    (an index out of range, which the scan never runs into, would read as a
    loop that found nothing). *)
Definition withScan (sc : Strconv) (lib : Library) : Library :=
  {| fmtDateTime := fmtDateTime lib; fmtClock := fmtClock lib;
     fmtDuration := fmtDuration lib; fmtFloat2 := fmtFloat2 lib;
     parseAvgLatency := fun out =>
       match scanOutput sc out with Some found => found | None => None end |}.

(** The first byte after the first "=" of the line, if there is one, is a
    space. *)
Definition spaceAfterEquals (line : string) : bool :=
  match Split line "="%char !! 1%nat with
  | Some (String a _) => Ascii.eqb a " "%char
  | Some EmptyString => false
  | None => true
  end.

(** Every line of the output that contains "avg" has a space after its
    first "=", as in the summary of ping,
    [rtt min/avg/max/mdev = 14.100/15.200/16.300/0.898 ms]. *)
Definition summaryWithSpace (out : string) : bool :=
  forallb (fun line => implb (Contains line "avg") (spaceAfterEquals line))
    (Split out (ascii_of_nat 10)).

(** ** Notions for the further properties *)

(** The running time of the [count] external calls from the [from]-th on. *)
Fixpoint tookSum (answers : nat -> Reply) (from count : nat) : Z :=
  match count with
  | O => 0
  | S count => took (answers from) + tookSum answers (S from) count
  end.

(** What [runDHCPRenew] reports, from the answers of the renewal and of
    [cat /etc/resolv.conf]. *)
Definition renewReport (renewal resolv : Reply) : Z * bool :=
  match failure renewal, failure resolv with
  | None, None =>
      if Contains (output resolv) "nameserver"
      then (took renewal + took resolv, true)
      else (0, false)
  | _, _ => (0, false)
  end.

(** The commands of a lease test, by the interface. *)
Definition releaseCmd (w : WiFiMonitor) : Call :=
  Exec ["sudo"; "dhclient"; "-r"; wifiInterface w]%string.
Definition renewCmd (w : WiFiMonitor) : Call :=
  Exec ["sudo"; "dhclient"; wifiInterface w]%string.
Definition resolvCmd : Call := Exec ["cat"; "/etc/resolv.conf"]%string.
Definition ping4Cmd (w : WiFiMonitor) : Call :=
  Exec ["ping"; "-I"; wifiInterface w; "-c"; "1"; "-W"; "5"; "8.8.8.8"]%string.
Definition ping6Cmd (w : WiFiMonitor) : Call :=
  Exec ["ping6"; "-I"; wifiInterface w; "-c"; "1"; "-W"; "5";
        "2001:4860:4860::8888"]%string.
Definition latencyCmd (w : WiFiMonitor) : Call :=
  Exec ["ping"; "-I"; wifiInterface w; "-c"; "3"; "-W"; "5"; "8.8.8.8"]%string.

(** A computation keeps a relation between the world before and after. *)
Definition preserves {A} (R : relation World) (m : M A) : Prop :=
  forall σ a σ', m σ = Some (a, σ') -> R σ σ'.

(** A computation that leaves the world as it is. *)
Definition neutral {A} (m : M A) : Prop :=
  forall σ a σ', m σ = Some (a, σ') -> σ' = σ.

(** Time passes by the pauses of the program and by the running time of
    the external calls it makes; the answers of the world and the
    environment stay. *)
Definition elapses (σ σ' : World) : Prop :=
  answers σ' = answers σ /\ environ σ' = environ σ /\
  exists cs pause,
    0 <= pause /\ calls σ' = calls σ ++ cs /\
    clock σ' = clock σ + pause
               + tookSum (answers σ) (length (calls σ)) (length cs).

(** What a probe does to the world: it runs commands and lets time pass. *)
Definition probes (σ σ' : World) : Prop :=
  elapses σ σ' /\ files σ' = files σ /\ stdout σ' = stdout σ /\
  uiQueue σ' = uiQueue σ.

(** The file at [path] grows at its end, or is created; it is not removed;
    no other file changes. *)
Definition appends (path : string) (σ σ' : World) : Prop :=
  (forall other, other <> path -> files σ' !! other = files σ !! other) /\
  (is_Some (files σ !! path) -> is_Some (files σ' !! path)) /\
  exists suffix, content path σ' = content path σ +:+ suffix.

(** What an emission does to the world. *)
Definition emits (path : string) (σ σ' : World) : Prop :=
  elapses σ σ' /\ appends path σ σ' /\ stdout σ' = stdout σ /\
  uiQueue σ' = uiQueue σ.

(** A line that reports an emission that failed. *)
Definition errorLine (line : string) : Prop :=
  exists e, line = "Error writing to file: " +:+ e +:+ nl.

(** What a run does to the world. *)
Definition runs (path : string) (σ σ' : World) : Prop :=
  elapses σ σ' /\ appends path σ σ' /\
  (exists lines, stdout σ' = stdout σ ++ lines /\ Forall errorLine lines) /\
  (exists screens, uiQueue σ' = uiQueue σ ++ screens).

(** No external call takes a negative time. *)
Definition steady (σ : World) : Prop := forall n, 0 <= took (answers σ n).

(** The results are in the order of their timestamps. *)
Definition chronological (tests : list WiFiTest) : Prop :=
  StronglySorted (fun a b => Timestamp a <= Timestamp b) tests.

(** How often a ticker fired. *)
Definition fires (t : Ticker) (fired : list Ticker) : nat :=
  length (List.filter
            (fun u => match t, u with
                      | dhcpTicker, dhcpTicker | pingTicker, pingTicker
                      | uiTicker, uiTicker | fileTicker, fileTicker => true
                      | _, _ => false
                      end) fired).

(** The texts, one after the other. *)
Definition joined (texts : list string) : string :=
  foldr String.append EmptyString texts.

(** What the writes of the texts [ds] left in the file, the last of them
    having answered [reply] and every earlier one having succeeded: all the
    texts when the last write succeeded too; otherwise the texts before the
    last and, of the last, the first bytes, as many as its write reports. *)
Definition gained (reply : Reply) (ds : list string) (result : error) : string :=
  match result with
  | None => joined ds
  | Some _ =>
      joined (removelast ds)
      +:+ substring 0 (written reply) (default EmptyString (last ds))
  end.

(** The writes of a part of an emission: it wrote the texts [ds] to the
    file, in this order and nothing else; every write but the last
    succeeded; the result is what the last one answered; the file gained
    what these writes left. *)
Definition writes (path : string) (σ σ' : World) (result : error) : Prop :=
  answers σ' = answers σ /\
  exists ds,
    calls σ' = calls σ ++ map (WriteFile path) ds /\
    (forall k, (S k < length ds)%nat ->
               failure (answers σ (length (calls σ) + k)) = None) /\
    result = match ds with
             | [] => None
             | _ => failure (answers σ (length (calls σ) + length ds - 1))
             end /\
    content path σ'
      = content path σ
        +:+ gained (answers σ (length (calls σ) + length ds - 1)) ds result.

Definition writing (path : string) (m : M error) : Prop :=
  forall σ result σ', m σ = Some (result, σ') -> writes path σ σ' result.

(** The number of failed results in a history. *)
Definition failures (tests : list WiFiTest) : nat :=
  length (List.filter (fun test => negb (Success test)) tests).

(** The rows of a chart: the first ten results, numbered from 1. *)
Definition chartRows (row : Z -> WiFiTest -> string) (tests : list WiFiTest)
    : list string :=
  imap (fun k test => row (Z.of_nat k) test) (take 10 tests).

(** The verdict of a recorded lease result: a success has IPv4 reachable
    and a positive latency. *)
Definition leaseVerdict (test : WiFiTest) : Prop :=
  Success test = true -> IPv4Connectivity test = true /\ 0 < Latency test.

(** The verdict of a recorded connectivity result: a success exactly when
    IPv4 is reachable and the latency is positive; no renewal time. *)
Definition pingVerdict (test : WiFiTest) : Prop :=
  Success test = IPv4Connectivity test && (0 <? Latency test) /\
  DHCPRenewTime test = 0.

(** ** Sample inputs *)

Module Sample.

(** Hundredths of a binary64 number, rounded half up. *)
Definition hundredths (f : float) : Z :=
  match Prim2SF f with
  | SpecFloat.S754_finite s m e =>
      let n := 100 * Z.pos m in
      let q := match e with
               | Z.neg p => (2 * n + 2 ^ Z.pos p) / 2 ^ (Z.pos p + 1)
               | _ => n * 2 ^ e
               end in
      if s then - q else q
  | _ => 0
  end.

Definition pad2 (n : Z) : string :=
  if n <? 10 then "0" +:+ fmtInt n else fmtInt n.

(** A library that prints instants and durations as their number of
    nanoseconds, and finds no average in the output of ping, so that the
    latency is the time the command took. *)
Definition lib : Library :=
  {| fmtDateTime := fun t => fmtInt t;
     fmtClock := fun t => fmtInt t;
     fmtDuration := fun d => fmtInt d +:+ "ns";
     fmtFloat2 := fun f =>
       let h := hundredths f in
       fmtInt (h / 100) +:+ "." +:+ pad2 (h mod 100);
     parseAvgLatency := fun _ => None |}.

Definition ok (d : Z) : Reply :=
  {| failure := None; output := "nameserver 8.8.8.8"; took := d;
     written := 0 |}.

Definition failed (message : string) : Reply :=
  {| failure := Some message; output := EmptyString; took := 0;
     written := 0 |}.

(** The world that answers the first calls as listed and [ok 15ms] after. *)
Definition world (env : string -> string) (first : list Reply) : World :=
  {| clock := 0; environ := env;
     answers := fun n => nth n first (ok (15 * millisecond));
     calls := []; files := ∅; stdout := []; uiQueue := [] |}.

Definition noEnv : string -> string := fun _ => EmptyString.

Definition headlessEnv : string -> string :=
  fun key => if String.eqb key "HEADLESS" then "true" else EmptyString.

(** The release succeeds, the renewal fails, every later command succeeds
    and takes 15ms. *)
Definition renewFails : World :=
  world noEnv [ok 0; failed "exit status 2"].

(** A headless run in which the log file cannot be opened. *)
Definition readOnly : World :=
  world headlessEnv [failed "open noc-watch.log: permission denied"].

(** The [k]-th lease result of a history: renewed in [k] seconds. *)
Definition lease (k : Z) : WiFiTest :=
  {| DHCPRenewTime := k * second; IPv4Connectivity := true;
     IPv6Connectivity := true; Latency := 15 * millisecond;
     Success := true; Timestamp := k * 300 * second |}.

(** Eleven lease results, the oldest first. *)
Definition eleven : list WiFiTest :=
  [lease 1; lease 2; lease 3; lease 4; lease 5; lease 6; lease 7; lease 8;
   lease 9; lease 10; lease 11].

(** Every command succeeds and takes 15ms. *)
Definition calm : World := world noEnv [].

(** The monitor of a headless run, before the first tick. *)
Definition fresh : WiFiMonitor :=
  {| dhcpTests := []; pingTests := []; successCount := 0; totalCount := 0;
     app := None; statsView := None; chartView := None; logView := None;
     wifiInterface := "wlan0"; logFile := "noc-watch.log"; headless := true |}.

(** The headless monitor after ten lease tests. *)
Definition tenRecorded : WiFiMonitor :=
  fold_left (fun w test => recordDHCP test w) (take 10 eleven) fresh.

(** A connectivity result: both pings answered, 15ms. *)
Definition reachable : WiFiTest :=
  {| DHCPRenewTime := 0; IPv4Connectivity := true; IPv6Connectivity := true;
     Latency := 15 * millisecond; Success := true; Timestamp := 60 * second |}.

(** The headless monitor after one lease test and one connectivity test. *)
Definition seen : WiFiMonitor :=
  recordPing reachable (recordDHCP (lease 1) fresh).

(** [strings.TrimSpace] on a text without white space at its ends, and
    [strconv.ParseFloat] on the few texts used here. *)
Definition strconv : Strconv :=
  {| TrimSpace := fun s => s;
     ParseFloat := fun s =>
       if String.eqb s "15" then Some 15%float else None;
     toDuration := fun f =>
       match Prim2SF f with
       | SpecFloat.S754_finite s m e =>
           let q := match e with
                    | Z.neg p => Z.pos m / 2 ^ Z.pos p
                    | _ => Z.pos m * 2 ^ e
                    end in
           if s then - q else q
       | _ => 0
       end |}.

(** What [ping -c 3] prints. *)
Definition pingOutput : string :=
  "PING 8.8.8.8 (8.8.8.8) from 192.168.1.23 wlan0: 56(84) bytes of data." +:+ nl
  +:+ "64 bytes from 8.8.8.8: icmp_seq=1 ttl=117 time=14.1 ms" +:+ nl
  +:+ "64 bytes from 8.8.8.8: icmp_seq=2 ttl=117 time=15.2 ms" +:+ nl
  +:+ "64 bytes from 8.8.8.8: icmp_seq=3 ttl=117 time=16.3 ms" +:+ nl
  +:+ nl
  +:+ "--- 8.8.8.8 ping statistics ---" +:+ nl
  +:+ "3 packets transmitted, 3 received, 0% packet loss, time 2003ms" +:+ nl
  +:+ "rtt min/avg/max/mdev = 14.100/15.200/16.300/0.898 ms" +:+ nl.

(** The three pings took 2018ms and printed [pingOutput]. *)
Definition pinged : Reply :=
  {| failure := None; output := pingOutput; took := 2018 * millisecond;
     written := 0 |}.

(** An environment that names an interface and a log file, and asks for
    headless mode with "1". *)
Definition customEnv : string -> string :=
  fun key =>
    if String.eqb key "WIFI_INTERFACE" then "wlp3s0"
    else if String.eqb key "LOG_FILE" then "/var/log/noc-watch/noc-watch.log"
    else if String.eqb key "HEADLESS" then "1"
    else EmptyString.

(** A headless run in which the third write to the log file fails. *)
Definition fullDisk : World :=
  world headlessEnv
    [ok 0; ok 0; ok 0; failed "write noc-watch.log: no space left on device"].

(** The monitor of a run in TUI mode, before the first tick. *)
Definition interactive : WiFiMonitor :=
  {| dhcpTests := []; pingTests := []; successCount := 0; totalCount := 0;
     app := Some 0%nat; statsView := Some 1%nat; chartView := Some 2%nat;
     logView := Some 3%nat;
     wifiInterface := "wlan0"; logFile := "noc-watch.log"; headless := false |}.

(** A headless run in which the third write to the log file fails after
    its first twelve bytes. *)
Definition tornWrite : World :=
  world headlessEnv
    [ok 0; ok 0; ok 0;
     {| failure := Some "write noc-watch.log: no space left on device";
        output := EmptyString; took := 0; written := 12 |}].



End Sample.

(** ** Running the monad in proofs *)

Ltac unfold_monad :=
  unfold orReturn, liftO, panic, mbind, M_bind, mret, M_ret in *.

Ltac unfold_io :=
  unfold cmdRun, cmdOutput, openAppend, Fprintf, Printf, QueueUpdateDraw,
    external, Now, Since, Sleep, Getenv in *;
  unfold_monad.

(** * Properties *)

(** ** Machine integers *)

Lemma wrap64_small z : - 2 ^ 63 <= z < 2 ^ 63 -> wrap64 z = z.
Proof.
  intros Hz. unfold wrap64.
  rewrite Z.mod_small by lia. lia.
Qed.

Lemma wrap64_incr z : incr (wrap64 z) = wrap64 (z + 1).
Proof.
  unfold incr, wrap64.
  replace ((z + 2 ^ 63) mod 2 ^ 64 - 2 ^ 63 + 1 + 2 ^ 63)
    with ((z + 2 ^ 63) mod 2 ^ 64 + 1) by lia.
  replace (z + 1 + 2 ^ 63) with ((z + 2 ^ 63) + 1) by lia.
  rewrite Zplus_mod_idemp_l. reflexivity.
Qed.

Lemma len_app {A} (l k : list A) : len (l ++ k) = len l + len k.
Proof. unfold len. rewrite length_app. lia. Qed.

Lemma len_nonneg {A} (l : list A) : 0 <= len l.
Proof. unfold len. lia. Qed.

(** Indexing the last element under the guard [len(s) > 0] does not panic. *)
Lemma index_last {A} (s : list A) σ :
  (0 <? len s) = true ->
  exists x, index s (len s - 1) σ = Some (x, σ) /\ last s = Some x.
Proof.
  intros Hpos. apply Z.ltb_lt in Hpos. unfold index, len in *.
  destruct (Z.leb_spec 0 (Z.of_nat (length s) - 1)) as [_|Hneg]; [|lia].
  replace (Z.to_nat (Z.of_nat (length s) - 1)) with (pred (length s)) by lia.
  rewrite <- last_lookup.
  destruct (last s) as [x|] eqn:Hlast.
  - exists x. split; reflexivity.
  - apply last_None in Hlast. subst s. simpl in Hpos. lia.
Qed.

(** ** The probes always answer *)

Lemma runDHCPRenew_total w σ :
  exists d ok σ', runDHCPRenew w σ = Some ((d, ok), σ') /\ (ok = false -> d = 0).
Proof.
  unfold runDHCPRenew. unfold_io. simpl.
  repeat case_match; simplify_eq;
    do 3 eexists; (split; [reflexivity | congruence]).
Qed.

Lemma checkIPv4Connectivity_total w σ :
  exists v σ', checkIPv4Connectivity w σ = Some (v, σ').
Proof. unfold checkIPv4Connectivity. unfold_io. simpl. eauto. Qed.

Lemma checkIPv6Connectivity_total w σ :
  exists v σ', checkIPv6Connectivity w σ = Some (v, σ').
Proof. unfold checkIPv6Connectivity. unfold_io. simpl. eauto. Qed.

Lemma measureLatency_total lib w σ :
  exists d σ', measureLatency lib w σ = Some (d, σ').
Proof.
  unfold measureLatency. unfold_io. simpl.
  repeat case_match; simplify_eq; eauto.
Qed.

(** What each probe returns, in terms of the answer of the world. *)
Lemma checkIPv4Connectivity_eq w σ :
  checkIPv4Connectivity w σ =
    let r := answers σ (length (calls σ)) in
    Some (match failure r with None => true | Some _ => false end,
          tick (took r)
            (record_call
               (Exec ["ping"; "-I"; wifiInterface w; "-c"; "1"; "-W"; "5";
                      "8.8.8.8"]%string) σ)).
Proof. reflexivity. Qed.

Lemma checkIPv6Connectivity_eq w σ :
  checkIPv6Connectivity w σ =
    let r := answers σ (length (calls σ)) in
    Some (match failure r with None => true | Some _ => false end,
          tick (took r)
            (record_call
               (Exec ["ping6"; "-I"; wifiInterface w; "-c"; "1"; "-W"; "5";
                      "2001:4860:4860::8888"]%string) σ)).
Proof. reflexivity. Qed.

Lemma measureLatency_eq lib w σ :
  measureLatency lib w σ =
    let r := answers σ (length (calls σ)) in
    Some (match failure r with
          | Some _ => 0
          | None => match parseAvgLatency lib (output r) with
                    | Some latency => latency
                    | None => took r
                    end
          end,
          tick (took r)
            (record_call
               (Exec ["ping"; "-I"; wifiInterface w; "-c"; "3"; "-W"; "5";
                      "8.8.8.8"]%string) σ)).
Proof.
  unfold measureLatency. unfold_io. simpl.
  repeat case_match; simplify_eq; repeat f_equal; simpl; lia.
Qed.

(** [runTest] is the four probes in sequence and the conjunction of their
    verdicts. *)
Lemma runTest_steps lib w σ d ok σ1 v4 σ2 v6 σ3 lat σ4 :
  runDHCPRenew w σ = Some ((d, ok), σ1) ->
  checkIPv4Connectivity w σ1 = Some (v4, σ2) ->
  checkIPv6Connectivity w σ2 = Some (v6, σ3) ->
  measureLatency lib w σ3 = Some (lat, σ4) ->
  runTest lib w σ =
    Some ({| DHCPRenewTime := d; IPv4Connectivity := v4; IPv6Connectivity := v6;
             Latency := lat; Success := ok && v4 && (0 <? lat);
             Timestamp := clock σ |}, σ4).
Proof.
  intros H1 H2 H3 H4. unfold runTest, Now. unfold_monad.
  rewrite H1, H2, H3, H4. reflexivity.
Qed.

Lemma runConnectivityTest_steps lib w σ v4 σ1 v6 σ2 lat σ3 :
  checkIPv4Connectivity w σ = Some (v4, σ1) ->
  checkIPv6Connectivity w σ1 = Some (v6, σ2) ->
  measureLatency lib w σ2 = Some (lat, σ3) ->
  runConnectivityTest lib w σ =
    Some ({| DHCPRenewTime := 0; IPv4Connectivity := v4; IPv6Connectivity := v6;
             Latency := lat; Success := v4 && (0 <? lat);
             Timestamp := clock σ |}, σ3).
Proof.
  intros H1 H2 H3. unfold runConnectivityTest, Now. unfold_monad.
  rewrite H1, H2, H3. reflexivity.
Qed.

Lemma runTest_total lib w σ : exists t σ', runTest lib w σ = Some (t, σ').
Proof.
  destruct (runDHCPRenew_total w σ) as (d & ok & σ1 & H1 & _).
  destruct (checkIPv4Connectivity_total w σ1) as (v4 & σ2 & H2).
  destruct (checkIPv6Connectivity_total w σ2) as (v6 & σ3 & H3).
  destruct (measureLatency_total lib w σ3) as (lat & σ4 & H4).
  erewrite runTest_steps by eassumption. eauto.
Qed.

Lemma runConnectivityTest_total lib w σ :
  exists t σ', runConnectivityTest lib w σ = Some (t, σ').
Proof.
  destruct (checkIPv4Connectivity_total w σ) as (v4 & σ1 & H1).
  destruct (checkIPv6Connectivity_total w σ1) as (v6 & σ2 & H2).
  destruct (measureLatency_total lib w σ2) as (lat & σ3 & H3).
  erewrite runConnectivityTest_steps by eassumption. eauto.
Qed.

(** ** Nothing panics *)

Lemma returns_bind {A B} (m : M A) (k : A -> M B) σ :
  returns m σ -> (forall a σ', returns (k a) σ') -> returns (m ≫= k) σ.
Proof.
  intros (a & σ1 & Hm) Hk. unfold returns in *. unfold_monad.
  rewrite Hm. apply Hk.
Qed.

Lemma returns_ret {A} (a : A) σ : returns (mret a) σ.
Proof. unfold returns. unfold_monad. eauto. Qed.

Lemma returns_orReturn (m k : M error) σ :
  returns m σ -> (forall σ', returns k σ') -> returns (orReturn m k) σ.
Proof.
  intros Hm Hk. unfold orReturn. apply returns_bind; [exact Hm|].
  intros [e|] σ'; [apply returns_ret | apply Hk].
Qed.

Lemma returns_liftO {A} (o : option A) σ : is_Some o -> returns (liftO o) σ.
Proof. intros [a ->]. apply returns_ret. Qed.

Lemma returns_openAppend path σ : returns (openAppend path) σ.
Proof. unfold returns. unfold_io. simpl. case_match; eauto. Qed.

Lemma returns_Fprintf path data σ : returns (Fprintf path data) σ.
Proof. unfold returns. unfold_io. simpl. case_match; eauto. Qed.

Lemma returns_index_last {A} (s : list A) σ :
  (0 <? len s) = true -> returns (index s (len s - 1)) σ.
Proof. intros H. destruct (index_last s σ H) as (x & Hx & _). red. eauto. Qed.

Lemma overallSuccessRate_defined w : is_Some (overallSuccessRate w).
Proof.
  unfold overallSuccessRate, fdiv.
  destruct (Z.ltb_spec 0 (totalCount w)) as [Hpos|_]; [|eauto].
  destruct (Z.eqb_spec (totalCount w) 0) as [Hz|_]; [lia|].
  simpl. eauto.
Qed.

Lemma classSuccessRate_defined tests : is_Some (classSuccessRate tests).
Proof.
  unfold classSuccessRate, fdiv.
  destruct (Z.ltb_spec 0 (len tests)) as [Hpos|_]; [|eauto].
  destruct (Z.eqb_spec (len tests) 0) as [Hz|_]; [lia|].
  simpl. eauto.
Qed.

Lemma returns_renderLog lib w σ : returns (renderLog lib w) σ.
Proof.
  unfold renderLog. apply returns_bind.
  - destruct (0 <? len (dhcpTests w)) eqn:Hd; [|apply returns_ret].
    apply returns_bind; [apply returns_index_last, Hd|].
    intros. apply returns_ret.
  - intros logText σ'.
    destruct (0 <? len (pingTests w)) eqn:Hp; [|apply returns_ret].
    apply returns_bind; [apply returns_index_last, Hp|].
    intros. apply returns_ret.
Qed.

Lemma returns_updateUI lib w σ : uiReady w = true -> returns (updateUI lib w) σ.
Proof.
  intros Hready. unfold updateUI, uiReady in *.
  destruct (headless w); [apply returns_ret|]. simpl in Hready.
  apply returns_bind; [apply returns_liftO, overallSuccessRate_defined|]. intros.
  apply returns_bind; [apply returns_liftO, classSuccessRate_defined|]. intros.
  apply returns_bind; [apply returns_liftO, classSuccessRate_defined|]. intros.
  apply returns_bind; [red; unfold Now; eauto|]. intros.
  apply returns_bind; [apply returns_renderLog|]. intros.
  destruct (app w); [|discriminate]. red. simpl. eauto.
Qed.

Lemma returns_writeResultsToFile lib w σ : returns (writeResultsToFile lib w) σ.
Proof.
  unfold writeResultsToFile.
  apply returns_orReturn; [apply returns_openAppend|]. intros.
  apply returns_bind; [red; unfold Now; eauto|]. intros.
  apply returns_orReturn; [apply returns_Fprintf|]. intros.
  apply returns_orReturn.
  { destruct (0 <? len (dhcpTests w)) eqn:Hd; [|apply returns_ret].
    apply returns_bind; [apply returns_index_last, Hd|].
    intros. apply returns_Fprintf. }
  intros. apply returns_orReturn.
  { destruct (0 <? len (pingTests w)) eqn:Hp; [|apply returns_ret].
    apply returns_bind; [apply returns_index_last, Hp|].
    intros. apply returns_Fprintf. }
  intros.
  apply returns_bind; [apply returns_liftO, classSuccessRate_defined|]. intros.
  apply returns_bind; [apply returns_liftO, classSuccessRate_defined|]. intros.
  apply returns_bind; [apply returns_liftO, overallSuccessRate_defined|]. intros.
  do 3 (apply returns_orReturn; [apply returns_Fprintf|]; intros).
  apply returns_Fprintf.
Qed.

(** C5: every success rate is computed without a division by zero and
    without an error: the overall rate is 0.0 when [totalCount] is 0 and
    100 * successCount / totalCount otherwise, the rate of a class is 0.0
    when its history is empty and 100 * successes / size otherwise, no rate
    ever divides by zero, and neither the log writer nor the dashboard
    panics. *)
Theorem success_rates_defined lib w σ :
  is_Some (overallSuccessRate w) /\
  is_Some (classSuccessRate (dhcpTests w)) /\
  is_Some (classSuccessRate (pingTests w)) /\
  (totalCount w = 0 -> overallSuccessRate w = Some 0%float) /\
  (dhcpTests w = [] -> classSuccessRate (dhcpTests w) = Some 0%float) /\
  (pingTests w = [] -> classSuccessRate (pingTests w) = Some 0%float) /\
  (0 < totalCount w ->
   overallSuccessRate w
     = Some (float64 (successCount w) / float64 (totalCount w) * 100)%float) /\
  (forall tests, tests <> [] ->
   classSuccessRate tests
     = Some (float64 (countSuccesses tests) / float64 (len tests) * 100)%float) /\
  returns (writeResultsToFile lib w) σ /\
  (uiReady w = true -> returns (updateUI lib w) σ).
Proof.
  split; [apply overallSuccessRate_defined|].
  split; [apply classSuccessRate_defined|].
  split; [apply classSuccessRate_defined|].
  split; [intros Hz; unfold overallSuccessRate; rewrite Hz; reflexivity|].
  split; [intros ->; reflexivity|].
  split; [intros ->; reflexivity|].
  split.
  { intros Hpos. unfold overallSuccessRate, fdiv.
    destruct (Z.ltb_spec 0 (totalCount w)) as [_|Hle]; [|lia].
    destruct (Z.eqb_spec (totalCount w) 0) as [Hz|_]; [lia | reflexivity]. }
  split.
  { intros tests Hne. unfold classSuccessRate, fdiv.
    assert (0 < len tests) as Hpos.
    { unfold len. destruct tests; [contradiction | simpl; lia]. }
    destruct (Z.ltb_spec 0 (len tests)) as [_|Hle]; [|lia].
    destruct (Z.eqb_spec (len tests) 0) as [Hz|_]; [lia | reflexivity]. }
  split; [apply returns_writeResultsToFile | apply returns_updateUI].
Qed.

Lemma success_rates_defined_witness :
  overallSuccessRate Sample.fresh = Some 0%float /\
  classSuccessRate (dhcpTests Sample.fresh) = Some 0%float /\
  classSuccessRate (pingTests Sample.fresh) = Some 0%float /\
  returns (updateUI Sample.lib Sample.fresh) Sample.calm.
Proof.
  destruct (success_rates_defined Sample.lib Sample.fresh Sample.calm)
    as (_ & _ & _ & Hall & Hdhcp & Hping & _ & _ & _ & Hui).
  split; [apply Hall; reflexivity|].
  split; [apply Hdhcp; reflexivity|].
  split; [apply Hping; reflexivity|].
  apply Hui. reflexivity.
Defined.

(** ** The counters and the histories *)

Lemma successes_snoc tests t :
  successes (tests ++ [t]) = (successes tests + if Success t then 1 else 0)%nat.
Proof.
  unfold successes. rewrite List.filter_app, length_app. simpl.
  destruct (Success t); reflexivity.
Qed.

Lemma successes_le tests : (successes tests <= length tests)%nat.
Proof. unfold successes. apply List.filter_length_le. Qed.

Lemma recordDHCP_consistent t w : consistent w -> consistent (recordDHCP t w).
Proof.
  intros [Htotal Hsucc]. split; simpl.
  - rewrite Htotal, wrap64_incr, len_app. f_equal. unfold len. simpl. lia.
  - rewrite successes_snoc, Hsucc.
    destruct (Success t); [rewrite wrap64_incr|]; f_equal; lia.
Qed.

Lemma recordPing_consistent t w : consistent w -> consistent (recordPing t w).
Proof.
  intros [Htotal Hsucc]. split; simpl.
  - rewrite Htotal, wrap64_incr, len_app. f_equal. unfold len. simpl. lia.
  - rewrite successes_snoc, Hsucc.
    destruct (Success t); [rewrite wrap64_incr|]; f_equal; lia.
Qed.

(** While fewer than 2^63 results are recorded, the machine equality is the
    mathematical one. *)
Lemma consistent_exact w :
  consistent w -> Z.of_nat (recorded w) < 2 ^ 63 ->
  totalCount w = len (dhcpTests w) + len (pingTests w) /\
  successCount w = Z.of_nat (successes (dhcpTests w) + successes (pingTests w)).
Proof.
  intros [Htotal Hsucc] Hsmall. unfold recorded, len in *.
  pose proof (successes_le (dhcpTests w)). pose proof (successes_le (pingTests w)).
  rewrite Htotal, Hsucc. split; apply wrap64_small; lia.
Qed.

(** What one turn of the loop does to the monitor. *)
Lemma onTick_cases lib t w σ :
  uiReady w = true ->
  exists w' σ', onTick lib t w σ = Some (w', σ') /\
    match t with
    | dhcpTicker =>
        exists test σ1, runTest lib w σ = Some (test, σ1) /\ w' = recordDHCP test w
    | pingTicker =>
        exists test σ1,
          runConnectivityTest lib w σ = Some (test, σ1) /\ w' = recordPing test w
    | uiTicker | fileTicker => w' = w
    end.
Proof.
  intros Hready. destruct t; unfold onTick; unfold_monad.
  - destruct (runTest_total lib w σ) as (test & σ1 & Hrun). rewrite Hrun.
    destruct (returns_updateUI lib (recordDHCP test w) σ1 Hready) as ([] & σ2 & Hui).
    rewrite Hui. eauto 8.
  - destruct (runConnectivityTest_total lib w σ) as (test & σ1 & Hrun). rewrite Hrun.
    destruct (returns_updateUI lib (recordPing test w) σ1 Hready) as ([] & σ2 & Hui).
    rewrite Hui. eauto 8.
  - destruct (headless w) eqn:Hh; [eauto|].
    destruct (returns_updateUI lib w σ Hready) as ([] & σ2 & Hui).
    rewrite Hui. eauto.
  - destruct (returns_writeResultsToFile lib w σ) as (e & σ1 & Hwrite).
    rewrite Hwrite. destruct e; simpl; eauto.
Qed.

Lemma onTick_invariant lib t w σ :
  uiReady w = true -> consistent w ->
  exists w' σ', onTick lib t w σ = Some (w', σ') /\
    uiReady w' = true /\ consistent w' /\ (recorded w' <= S (recorded w))%nat.
Proof.
  intros Hready Hcons.
  destruct (onTick_cases lib t w σ Hready) as (w' & σ' & Hstep & Hshape).
  exists w', σ'. split; [exact Hstep|].
  destruct t.
  - destruct Hshape as (test & σ1 & _ & ->).
    split; [exact Hready|]. split; [apply recordDHCP_consistent, Hcons|].
    unfold recorded. simpl. rewrite length_app. simpl. lia.
  - destruct Hshape as (test & σ1 & _ & ->).
    split; [exact Hready|]. split; [apply recordPing_consistent, Hcons|].
    unfold recorded. simpl. rewrite length_app. simpl. lia.
  - subst w'. auto.
  - subst w'. auto.
Qed.

Lemma loop_invariant lib fired : forall w σ,
  uiReady w = true -> consistent w ->
  exists w' σ', loop lib fired w σ = Some (w', σ') /\
    uiReady w' = true /\ consistent w' /\
    (recorded w' <= recorded w + length fired)%nat.
Proof.
  induction fired as [|t rest IH]; intros w σ Hready Hcons; simpl.
  - exists w, σ. split; [reflexivity|]. repeat split; try assumption; try apply Hcons. lia.
  - destruct (onTick_invariant lib t w σ Hready Hcons)
      as (w1 & σ1 & Hstep & Hready1 & Hcons1 & Hrec1).
    destruct (IH w1 σ1 Hready1 Hcons1) as (w2 & σ2 & Hloop & Hready2 & Hcons2 & Hrec2).
    exists w2, σ2. unfold_monad. rewrite Hstep. split; [exact Hloop|].
    repeat split; try assumption; try apply Hcons2. lia.
Qed.

Lemma loop_cons lib t rest w σ :
  loop lib (t :: rest) w σ =
    match onTick lib t w σ with
    | Some (w1, σ1) => loop lib rest w1 σ1
    | None => None
    end.
Proof. reflexivity. Qed.

Lemma loop_app lib before after w σ :
  loop lib (before ++ after) w σ =
    match loop lib before w σ with
    | Some (w1, σ1) => loop lib after w1 σ1
    | None => None
    end.
Proof.
  revert w σ. induction before as [|t rest IH]; intros w σ; simpl.
  - reflexivity.
  - unfold_monad. destruct (onTick lib t w σ) as [[w1 σ1]|]; [apply IH|reflexivity].
Qed.

(** [main] builds an empty monitor that is ready for its mode, and enters
    the loop. *)
Lemma main_start lib σ :
  exists w0 σ0,
    (forall fired, main lib fired σ = loop lib fired w0 σ0) /\
    uiReady w0 = true /\
    dhcpTests w0 = [] /\ pingTests w0 = [] /\
    totalCount w0 = 0 /\ successCount w0 = 0.
Proof.
  unfold main, NewWiFiMonitor, startMonitoring, Getenv, Now. unfold_monad. simpl.
  destruct (String.eqb (environ σ "HEADLESS") "true") eqn:Hmode; simpl.
  - do 2 eexists. split; [intros fired; reflexivity|].
    repeat split; reflexivity.
  - do 2 eexists. split; [intros fired; reflexivity|].
    repeat split; reflexivity.
Qed.

(** C1: at every point of every run -- after the tickers [before] have been
    served, whatever fires [after] -- the monitor exists and its counters
    agree with its histories: [totalCount] is the number of entries of the
    two histories and [successCount] the number of their successful entries
    (on the machine's [int], and as numbers while fewer than 2^63 tickers
    have fired). *)
Theorem counters_match_histories lib before after σ :
  exists w σ1,
    main lib before σ = Some (w, σ1) /\
    main lib (before ++ after) σ = loop lib after w σ1 /\
    consistent w /\
    (len before < 2 ^ 63 ->
     totalCount w = len (dhcpTests w) + len (pingTests w) /\
     successCount w =
       Z.of_nat (successes (dhcpTests w) + successes (pingTests w))).
Proof.
  destruct (main_start lib σ) as (w0 & σ0 & Hmain & Hready & Hd & Hp & Ht & Hs).
  assert (Hcons0 : consistent w0).
  { split; [rewrite Ht, Hd, Hp | rewrite Hs, Hd, Hp]; reflexivity. }
  destruct (loop_invariant lib before w0 σ0 Hready Hcons0)
    as (w & σ1 & Hloop & _ & Hcons & Hrec).
  exists w, σ1. rewrite !Hmain, loop_app, Hloop.
  split; [reflexivity|]. split; [reflexivity|]. split; [exact Hcons|].
  intros Hsmall. apply consistent_exact; [exact Hcons|].
  unfold recorded, len in *. rewrite Hd, Hp in Hrec. simpl in Hrec. lia.
Qed.

Lemma counters_match_histories_witness :
  exists w σ1,
    main Sample.lib [dhcpTicker; pingTicker; fileTicker] Sample.calm = Some (w, σ1) /\
    totalCount w = 2 /\ successCount w = 2.
Proof.
  destruct (counters_match_histories Sample.lib
              [dhcpTicker; pingTicker; fileTicker] [] Sample.calm)
    as (w & σ1 & Hrun & _ & _ & Hexact).
  exists w, σ1. split; [exact Hrun|].
  destruct Hexact as [Htotal Hsucc]; [vm_compute; reflexivity|].
  rewrite Htotal, Hsucc.
  vm_compute in Hrun. injection Hrun as <- <-.
  split; reflexivity.
Defined.

(** ** The verdict of a test *)

(** C3: the result of a lease-renewal test is a success exactly when the DHCP
    renewal succeeded, IPv4 is reachable and the latency is strictly
    positive.  With a successful renewal, IPv4 reachable and a latency of
    15ms it is a success; with IPv4 unreachable it is not.  That result is
    the one the loop records. *)
Theorem runTest_success_iff lib w σ :
  exists d ok σ1 v4 σ2 v6 σ3 lat σ4 t,
    runDHCPRenew w σ = Some ((d, ok), σ1) /\
    checkIPv4Connectivity w σ1 = Some (v4, σ2) /\
    checkIPv6Connectivity w σ2 = Some (v6, σ3) /\
    measureLatency lib w σ3 = Some (lat, σ4) /\
    runTest lib w σ = Some (t, σ4) /\
    IPv4Connectivity t = v4 /\ Latency t = lat /\
    (Success t = true <-> ok = true /\ v4 = true /\ 0 < lat) /\
    (ok = true -> v4 = true -> lat = 15 * millisecond -> Success t = true) /\
    (v4 = false -> Success t = false) /\
    (uiReady w = true ->
     exists σ', onTick lib dhcpTicker w σ = Some (recordDHCP t w, σ')).
Proof.
  destruct (runDHCPRenew_total w σ) as (d & ok & σ1 & H1 & _).
  destruct (checkIPv4Connectivity_total w σ1) as (v4 & σ2 & H2).
  destruct (checkIPv6Connectivity_total w σ2) as (v6 & σ3 & H3).
  destruct (measureLatency_total lib w σ3) as (lat & σ4 & H4).
  exists d, ok, σ1, v4, σ2, v6, σ3, lat, σ4.
  eexists. do 4 (split; [eassumption|]).
  split; [eapply runTest_steps; eassumption|]. simpl.
  do 2 (split; [reflexivity|]).
  split; [|split; [|split]].
  - rewrite !andb_true_iff, Z.ltb_lt. tauto.
  - intros -> -> ->. reflexivity.
  - intros ->. rewrite andb_false_r. reflexivity.
  - intros Hready.
    destruct (onTick_cases lib dhcpTicker w σ Hready)
      as (w' & σ' & Hstep & test & σr & Hrun & ->).
    rewrite (runTest_steps lib w σ d ok σ1 v4 σ2 v6 σ3 lat σ4 H1 H2 H3 H4) in Hrun.
    injection Hrun as <- _. eauto.
Qed.

Lemma runTest_success_iff_witness :
  exists t σ', runTest Sample.lib Sample.fresh Sample.calm = Some (t, σ') /\
               Latency t = 15 * millisecond /\ Success t = true.
Proof.
  destruct (runTest_success_iff Sample.lib Sample.fresh Sample.calm)
    as (d & ok & σ1 & v4 & σ2 & v6 & σ3 & lat & σ4 & t
        & H1 & H2 & H3 & H4 & Hrun & Hv4 & Hlat & _ & Hyes & _).
  exists t, σ4. split; [exact Hrun|].
  vm_compute in H1. injection H1 as <- <- <-.
  vm_compute in H2. injection H2 as <- <-.
  vm_compute in H3. injection H3 as <- <-.
  vm_compute in H4. injection H4 as <- <-.
  split; [exact Hlat|].
  apply Hyes; reflexivity.
Defined.

(** C4: the result of a connectivity-only test is a success exactly when
    IPv4 is reachable and the latency is strictly positive; with IPv4
    reachable and a latency of zero it is a failure; and whatever the IPv6
    ping answers, the verdict is the same.  That result is the one the loop
    records. *)
Theorem runConnectivityTest_success_iff lib w σ :
  exists v4 σ1 v6 σ2 lat σ3 t,
    checkIPv4Connectivity w σ = Some (v4, σ1) /\
    checkIPv6Connectivity w σ1 = Some (v6, σ2) /\
    measureLatency lib w σ2 = Some (lat, σ3) /\
    runConnectivityTest lib w σ = Some (t, σ3) /\
    IPv4Connectivity t = v4 /\ IPv6Connectivity t = v6 /\ Latency t = lat /\
    (Success t = true <-> v4 = true /\ 0 < lat) /\
    (v4 = true -> lat = 0 -> Success t = false) /\
    (forall r : Reply,
       exists t' σ',
         runConnectivityTest lib w (with_answer (S (length (calls σ))) r σ)
           = Some (t', σ') /\
         Success t' = Success t) /\
    (uiReady w = true ->
     exists σ', onTick lib pingTicker w σ = Some (recordPing t w, σ')).
Proof.
  destruct (checkIPv4Connectivity_total w σ) as (v4 & σ1 & H1).
  destruct (checkIPv6Connectivity_total w σ1) as (v6 & σ2 & H2).
  destruct (measureLatency_total lib w σ2) as (lat & σ3 & H3).
  exists v4, σ1, v6, σ2, lat, σ3.
  eexists. do 3 (split; [eassumption|]).
  split; [eapply runConnectivityTest_steps; eassumption|]. simpl.
  do 3 (split; [reflexivity|]).
  split; [|split; [|split]].
  - rewrite andb_true_iff, Z.ltb_lt. tauto.
  - intros -> ->. reflexivity.
  - intros r.
    rewrite checkIPv4Connectivity_eq in H1. rewrite checkIPv6Connectivity_eq in H2.
    rewrite measureLatency_eq in H3. simpl in H1, H2, H3. simplify_eq.
    erewrite runConnectivityTest_steps;
      [| apply checkIPv4Connectivity_eq | apply checkIPv6Connectivity_eq
       | apply measureLatency_eq ].
    do 2 eexists. split; [reflexivity|]. simpl.
    rewrite !length_app. simpl.
    destruct (Nat.eqb_spec (length (calls σ)) (S (length (calls σ)))) as [E|_];
      [lia|].
    destruct (Nat.eqb_spec (length (calls σ) + 1 + 1) (S (length (calls σ))))
      as [E|_]; [lia|].
    reflexivity.
  - intros Hready.
    destruct (onTick_cases lib pingTicker w σ Hready)
      as (w' & σ' & Hstep & test & σr & Hrun & ->).
    rewrite (runConnectivityTest_steps lib w σ v4 σ1 v6 σ2 lat σ3 H1 H2 H3) in Hrun.
    injection Hrun as <- _. eauto.
Qed.

Lemma runConnectivityTest_success_iff_witness :
  exists t σ',
    runConnectivityTest Sample.lib Sample.fresh
      (Sample.world Sample.noEnv [Sample.ok 0; Sample.ok 0; Sample.ok 0])
      = Some (t, σ') /\
    IPv4Connectivity t = true /\ Latency t = 0 /\ Success t = false.
Proof.
  destruct (runConnectivityTest_success_iff Sample.lib Sample.fresh
              (Sample.world Sample.noEnv [Sample.ok 0; Sample.ok 0; Sample.ok 0]))
    as (v4 & σ1 & v6 & σ2 & lat & σ3 & t
        & H1 & H2 & H3 & Hrun & Hv4 & _ & Hlat & _ & Hno & _).
  exists t, σ3. split; [exact Hrun|].
  vm_compute in H1. injection H1 as <- <-.
  vm_compute in H2. injection H2 as <- <-.
  vm_compute in H3. injection H3 as <- <-.
  split; [exact Hv4|]. split; [exact Hlat|].
  apply Hno; reflexivity.
Defined.

(** ** What a recording changes *)

Lemma onTick_dhcp_inv lib w σ w' σ' :
  onTick lib dhcpTicker w σ = Some (w', σ') ->
  exists test σ1,
    runTest lib w σ = Some (test, σ1) /\
    updateUI lib (recordDHCP test w) σ1 = Some (tt, σ') /\
    w' = recordDHCP test w.
Proof.
  unfold onTick. unfold_monad. intros Hstep.
  destruct (runTest lib w σ) as [[test σ1]|]; [|discriminate].
  destruct (updateUI lib (recordDHCP test w) σ1) as [[[] σ2]|] eqn:Hui;
    [|discriminate].
  simplify_eq. eauto.
Qed.

Lemma onTick_ping_inv lib w σ w' σ' :
  onTick lib pingTicker w σ = Some (w', σ') ->
  exists test σ1,
    runConnectivityTest lib w σ = Some (test, σ1) /\
    updateUI lib (recordPing test w) σ1 = Some (tt, σ') /\
    w' = recordPing test w.
Proof.
  unfold onTick. unfold_monad. intros Hstep.
  destruct (runConnectivityTest lib w σ) as [[test σ1]|]; [|discriminate].
  destruct (updateUI lib (recordPing test w) σ1) as [[[] σ2]|] eqn:Hui;
    [|discriminate].
  simplify_eq. eauto.
Qed.

(** C9: recording a connectivity result changes the ping history, which
    gains the result at its end, [totalCount] and [successCount], and
    nothing else of the monitor: the DHCP history and every other field are
    the same.  Symmetrically for a lease result.  In a monitor that is ready
    for its mode both recordings complete. *)
Theorem recording_frame lib w σ :
  (forall w' σ', onTick lib pingTicker w σ = Some (w', σ') ->
     dhcpTests w' = dhcpTests w /\ settings w' = settings w /\
     exists test,
       pingTests w' = pingTests w ++ [test] /\
       totalCount w' = incr (totalCount w) /\
       successCount w' =
         if Success test then incr (successCount w) else successCount w) /\
  (forall w' σ', onTick lib dhcpTicker w σ = Some (w', σ') ->
     pingTests w' = pingTests w /\ settings w' = settings w /\
     exists test,
       dhcpTests w' = dhcpTests w ++ [test] /\
       totalCount w' = incr (totalCount w) /\
       successCount w' =
         if Success test then incr (successCount w) else successCount w) /\
  (uiReady w = true ->
     returns (onTick lib pingTicker w) σ /\ returns (onTick lib dhcpTicker w) σ).
Proof.
  split; [|split].
  - intros w' σ' Hstep.
    destruct (onTick_ping_inv lib w σ w' σ' Hstep) as (test & σ1 & _ & _ & ->).
    split; [reflexivity|]. split; [reflexivity|].
    exists test. repeat split; reflexivity.
  - intros w' σ' Hstep.
    destruct (onTick_dhcp_inv lib w σ w' σ' Hstep) as (test & σ1 & _ & _ & ->).
    split; [reflexivity|]. split; [reflexivity|].
    exists test. repeat split; reflexivity.
  - intros Hready. split.
    + destruct (onTick_cases lib pingTicker w σ Hready) as (w' & σ' & Hstep & _).
      red. eauto.
    + destruct (onTick_cases lib dhcpTicker w σ Hready) as (w' & σ' & Hstep & _).
      red. eauto.
Qed.

Lemma recording_frame_witness :
  exists w' σ',
    onTick Sample.lib pingTicker Sample.fresh Sample.calm = Some (w', σ') /\
    dhcpTests w' = [] /\ settings w' = settings Sample.fresh /\
    totalCount w' = 1.
Proof.
  destruct (recording_frame Sample.lib Sample.fresh Sample.calm)
    as (Hping & _ & Hreturns).
  destruct Hreturns as [(w' & σ' & Hstep) _]; [reflexivity|].
  exists w', σ'. split; [exact Hstep|].
  destruct (Hping w' σ' Hstep) as (Hd & Hs & test & _ & Ht & _).
  split; [exact Hd|]. split; [exact Hs|]. rewrite Ht. reflexivity.
Defined.

(** ** A log file that cannot be written *)

(** C8: when [writeResultsToFile] returns an error, the turn of the loop
    prints it on standard output, hands back the very same monitor, and the
    loop goes on with the next ticker from there. *)
Theorem sink_failure_reported lib w σ e σ1 :
  writeResultsToFile lib w σ = Some (Some e, σ1) ->
  onTick lib fileTicker w σ
    = Some (w, print ("Error writing to file: " +:+ e +:+ nl) σ1) /\
  stdout (print ("Error writing to file: " +:+ e +:+ nl) σ1)
    = stdout σ1 ++ ["Error writing to file: " +:+ e +:+ nl] /\
  forall rest,
    loop lib (fileTicker :: rest) w σ
      = loop lib rest w (print ("Error writing to file: " +:+ e +:+ nl) σ1).
Proof.
  intros Hwrite.
  assert (Hstep : onTick lib fileTicker w σ
                  = Some (w, print ("Error writing to file: " +:+ e +:+ nl) σ1)).
  { unfold onTick, Printf. unfold_monad. rewrite Hwrite. reflexivity. }
  split; [exact Hstep|]. split; [reflexivity|].
  intros rest. rewrite loop_cons, Hstep. reflexivity.
Qed.

Lemma sink_failure_reported_witness :
  exists σ',
    onTick Sample.lib fileTicker Sample.fresh Sample.readOnly
      = Some (Sample.fresh, σ') /\
    stdout σ' =
      ["Error writing to file: open noc-watch.log: permission denied" +:+ nl].
Proof.
  eexists. split.
  - apply (sink_failure_reported Sample.lib Sample.fresh Sample.readOnly).
    vm_compute. reflexivity.
  - vm_compute. reflexivity.
Defined.

(** ** The calls of a test *)

(** The dashboard makes no external call. *)
Lemma updateUI_calls lib w σ u σ' :
  updateUI lib w σ = Some (u, σ') -> calls σ' = calls σ.
Proof.
  unfold updateUI, renderLog, index. unfold_io.
  intros Hui. repeat (case_match; simplify_eq/=); reflexivity.
Qed.

(** A lease renewal asks for a new lease exactly once. *)
Lemma runDHCPRenew_calls w σ r σ1 :
  runDHCPRenew w σ = Some (r, σ1) ->
  exists cs, calls σ1 = calls σ ++ cs /\
             length (List.filter isRenew cs) = 1%nat /\
             (snd r = false -> fst r = 0).
Proof.
  unfold runDHCPRenew. unfold_io. simpl. intros Hrun.
  repeat (case_match; simplify_eq/=); rewrite <- ?app_assoc;
    eexists; (split; [reflexivity|]); (split; [reflexivity|]);
    intros; congruence.
Qed.

Lemma runTest_calls lib w σ test σ' :
  runTest lib w σ = Some (test, σ') ->
  length (List.filter isRenew (newCalls σ σ')) = 1%nat.
Proof.
  intros Hrun.
  destruct (runDHCPRenew w σ) as [[[d ok] σ1]|] eqn:H1;
    [|unfold runTest, Now in Hrun; unfold_monad; rewrite H1 in Hrun; discriminate].
  destruct (runDHCPRenew_calls w σ _ _ H1) as (cs & Hcs & Hone & _).
  erewrite runTest_steps in Hrun;
    [| exact H1 | apply checkIPv4Connectivity_eq | apply checkIPv6Connectivity_eq
     | apply measureLatency_eq ].
  simplify_eq. unfold newCalls. simpl. rewrite Hcs, <- !app_assoc.
  rewrite drop_app_length, List.filter_app, length_app, Hone. reflexivity.
Qed.

(** ** The window of the chart *)

Lemma chartLoop_done row i tests chartText :
  10 <= i -> chartLoop row i tests chartText = chartText.
Proof.
  intros Hi. destruct tests as [|test rest]; simpl; [reflexivity|].
  destruct (Z.leb_spec 10 i); [reflexivity | lia].
Qed.

(** The loop reads the entries at the indices below 10: the first ten. *)
Lemma chartLoop_take row tests : forall i chartText,
  0 <= i <= 10 ->
  chartLoop row i tests chartText
    = chartLoop row i (take (Z.to_nat (10 - i)) tests) chartText.
Proof.
  induction tests as [|test rest IH]; intros i chartText Hi.
  - rewrite take_nil. reflexivity.
  - destruct (Z.eq_dec i 10) as [->|Hne].
    + rewrite !chartLoop_done by lia. reflexivity.
    + replace (Z.to_nat (10 - i)) with (S (Z.to_nat (10 - (i + 1)))) by lia.
      simpl. destruct (Z.leb_spec 10 i); [lia|].
      apply IH. lia.
Qed.

Lemma dhcpChart_window lib tests chartText :
  dhcpChart lib tests chartText = dhcpChart lib (take 10 tests) chartText.
Proof.
  unfold dhcpChart. destruct tests as [|test rest]; [reflexivity|].
  change (len (take 10 (test :: rest)) =? 0) with false.
  change (len (test :: rest) =? 0) with (Z.pos (Pos.of_succ_nat (length rest)) =? 0).
  simpl (_ =? 0).
  apply (chartLoop_take (dhcpChartRow lib) (test :: rest) 0 chartText). lia.
Qed.

Lemma pingChart_window lib tests chartText :
  pingChart lib tests chartText = pingChart lib (take 10 tests) chartText.
Proof.
  unfold pingChart. destruct tests as [|test rest]; [reflexivity|].
  change (len (take 10 (test :: rest)) =? 0) with false.
  change (len (test :: rest) =? 0) with (Z.pos (Pos.of_succ_nat (length rest)) =? 0).
  simpl (_ =? 0).
  apply (chartLoop_take (pingChartRow lib) (test :: rest) 0 chartText). lia.
Qed.

(** C2 (the code at a history of eleven results): the chart lists the
    first ten results, the oldest ones, numbered 1 to 10; the eleventh and
    most recent result is not shown, whatever it is -- recording it leaves
    the chart as it was; the ten most recent results are another window. *)
Theorem chart_shows_oldest_ten lib chartText :
  length Sample.eleven = 11%nat /\
  dhcpChart lib Sample.eleven chartText
    = fold_left
        (fun text k => text +:+ dhcpChartRow lib (k - 1) (Sample.lease k))
        [1; 2; 3; 4; 5; 6; 7; 8; 9; 10] chartText /\
  (forall newest,
     dhcpChart lib (take 10 Sample.eleven ++ [newest]) chartText
       = dhcpChart lib Sample.eleven chartText) /\
  (forall newest,
     pingChart lib (take 10 Sample.eleven ++ [newest]) chartText
       = pingChart lib Sample.eleven chartText) /\
  (forall newest,
     renderChart lib (recordDHCP newest Sample.tenRecorded)
       = renderChart lib Sample.tenRecorded) /\
  latest 10 Sample.eleven = drop 1 Sample.eleven /\
  take 10 Sample.eleven <> latest 10 Sample.eleven.
Proof.
  split; [reflexivity|]. split; [reflexivity|].
  split; [|split; [|split; [|split]]].
  - intros newest.
    rewrite (dhcpChart_window lib (_ ++ _)), (dhcpChart_window lib Sample.eleven).
    reflexivity.
  - intros newest.
    rewrite (pingChart_window lib (_ ++ _)), (pingChart_window lib Sample.eleven).
    reflexivity.
  - intros newest. unfold renderChart.
    rewrite (dhcpChart_window lib (dhcpTests (recordDHCP _ _))).
    reflexivity.
  - reflexivity.
  - discriminate.
Qed.

(** ** The block appended to the log file *)

Lemma string_app_assoc (a b c : string) : (a +:+ b) +:+ c = a +:+ (b +:+ c).
Proof.
  induction a as [|x a IH]; [reflexivity|].
  change (String x ((a +:+ b) +:+ c) = String x (a +:+ (b +:+ c))).
  f_equal. exact IH.
Qed.

Lemma string_app_nil_r (a : string) : a +:+ EmptyString = a.
Proof.
  induction a as [|x a IH]; [reflexivity|].
  change (String x (a +:+ EmptyString) = String x a).
  f_equal. exact IH.
Qed.

Lemma orReturn_ok (m k : M error) σ σ' :
  orReturn m k σ = Some (None, σ') ->
  exists σ1, m σ = Some (None, σ1) /\ k σ1 = Some (None, σ').
Proof.
  unfold orReturn. unfold_monad. intros H.
  destruct (m σ) as [[[e|] σ1]|]; [discriminate | eauto | discriminate].
Qed.

Lemma bind_ok {A B} (m : M A) (k : A -> M B) σ b σ' :
  (m ≫= k) σ = Some (b, σ') ->
  exists a σ1, m σ = Some (a, σ1) /\ k a σ1 = Some (b, σ').
Proof.
  unfold_monad. intros H.
  destruct (m σ) as [[a σ1]|]; [eauto | discriminate].
Qed.

Lemma liftO_ok {A} (o : option A) σ a σ' :
  liftO o σ = Some (a, σ') -> o = Some a /\ σ' = σ.
Proof. destruct o; unfold liftO; unfold_monad; intros H; simplify_eq; auto. Qed.

Lemma openAppend_ok path σ σ' :
  openAppend path σ = Some (None, σ') ->
  content path σ' = content path σ /\
  clock σ' = clock σ + took (answers σ (length (calls σ))).
Proof.
  unfold openAppend, content. unfold_io. simpl. intros H.
  case_match; simplify_eq. simpl. rewrite lookup_insert_eq. auto.
Qed.

Lemma Fprintf_ok path data σ σ' :
  Fprintf path data σ = Some (None, σ') ->
  files σ' !! path = Some (content path σ +:+ data).
Proof.
  unfold Fprintf, content. unfold_io. simpl. intros H.
  case_match; simplify_eq. simpl. apply lookup_insert_eq.
Qed.

Lemma Fprintf_content path data σ σ' :
  Fprintf path data σ = Some (None, σ') ->
  content path σ' = content path σ +:+ data.
Proof.
  intros H. unfold content at 1. rewrite (Fprintf_ok _ _ _ _ H). reflexivity.
Qed.

(** The guarded write of the most recent result of a class. *)
Lemma latest_write_ok path line (tests : list WiFiTest) σ σ' :
  (if 0 <? len tests
   then test ← index tests (len tests - 1); Fprintf path (line test)
   else mret None) σ = Some (None, σ') ->
  content path σ' = content path σ +:+ latestLine line tests.
Proof.
  unfold latestLine.
  destruct (0 <? len tests) eqn:Hpos.
  - intros H. apply bind_ok in H as (test & σ1 & Hindex & Hwrite).
    destruct (index_last tests σ Hpos) as (x & Hx & Hlast).
    rewrite Hx in Hindex. simplify_eq. rewrite Hlast.
    apply Fprintf_content, Hwrite.
  - intros H. unfold_monad. simplify_eq.
    assert (tests = []) as ->.
    { apply Z.ltb_ge in Hpos. unfold len in Hpos.
      destruct tests; [reflexivity | simpl in Hpos; lia]. }
    simpl. rewrite string_app_nil_r. reflexivity.
Qed.

(** An emission that completes appends one block to the log file. *)
Lemma writeResultsToFile_ok lib w σ σ' :
  writeResultsToFile lib w σ = Some (None, σ') ->
  exists rate dhcpRate pingRate,
    overallSuccessRate w = Some rate /\
    classSuccessRate (dhcpTests w) = Some dhcpRate /\
    classSuccessRate (pingTests w) = Some pingRate /\
    files σ' !! logFile w
      = Some (content (logFile w) σ
              +:+ logBlock lib w
                    (clock σ + took (answers σ (length (calls σ))))
                    rate dhcpRate pingRate).
Proof.
  unfold writeResultsToFile. intros H.
  apply orReturn_ok in H as (σ1 & Hopen & H).
  apply openAppend_ok in Hopen as [Hc1 Hclock].
  apply bind_ok in H as (now & σ1' & Hnow & H).
  unfold Now in Hnow. simplify_eq.
  apply orReturn_ok in H as (σ2 & Hheader & H).
  apply Fprintf_content in Hheader.
  apply orReturn_ok in H as (σ3 & Hdhcp & H).
  apply latest_write_ok in Hdhcp.
  apply orReturn_ok in H as (σ4 & Hping & H).
  apply latest_write_ok in Hping.
  apply bind_ok in H as (dhcpRate & σ4' & Hdr & H).
  apply liftO_ok in Hdr as [Hdr ->].
  apply bind_ok in H as (pingRate & σ4' & Hpr & H).
  apply liftO_ok in Hpr as [Hpr ->].
  apply bind_ok in H as (rate & σ4' & Hr & H).
  apply liftO_ok in Hr as [Hr ->].
  apply orReturn_ok in H as (σ5 & Htotals & H).
  apply Fprintf_content in Htotals.
  apply orReturn_ok in H as (σ6 & Hdrl & H).
  apply Fprintf_content in Hdrl.
  apply orReturn_ok in H as (σ7 & Hprl & H).
  apply Fprintf_content in Hprl.
  apply Fprintf_ok in H.
  exists rate, dhcpRate, pingRate.
  do 3 (split; [assumption|]).
  rewrite H, Hprl, Hdrl, Htotals, Hping, Hdhcp, Hheader, Hc1, Hclock.
  unfold logBlock. rewrite !string_app_assoc. reflexivity.
Qed.

(** C6 (amended): an emission whose writes all succeed appends to the log
    file, in this order: the header with the time of the emission; the line
    of the most recent lease result when there is one; the line of the most
    recent connectivity result when there is one; the totals with the
    overall rate; the lease rate; the connectivity rate; the delimiter.
    When both classes have a result, that is the full block of the format. *)
Theorem log_block_format lib w σ σ' :
  writeResultsToFile lib w σ = Some (None, σ') ->
  exists now rate dhcpRate pingRate,
    now = clock σ + took (answers σ (length (calls σ))) /\
    overallSuccessRate w = Some rate /\
    classSuccessRate (dhcpTests w) = Some dhcpRate /\
    classSuccessRate (pingTests w) = Some pingRate /\
    files σ' !! logFile w
      = Some (content (logFile w) σ
              +:+ headerLine (fmtDateTime lib now)
              +:+ latestLine (dhcpLine lib) (dhcpTests w)
              +:+ latestLine (pingLine lib) (pingTests w)
              +:+ totalsLine lib w rate
              +:+ dhcpRateLine lib dhcpRate
              +:+ pingRateLine lib pingRate
              +:+ delimiterLine) /\
    (dhcpTests w <> [] -> pingTests w <> [] ->
     fullLogBlock lib w now rate dhcpRate pingRate
       (logBlock lib w now rate dhcpRate pingRate)).
Proof.
  intros Hwrite.
  destruct (writeResultsToFile_ok lib w σ σ' Hwrite)
    as (rate & dhcpRate & pingRate & Hr & Hdr & Hpr & Hfile).
  eexists _, rate, dhcpRate, pingRate.
  split; [reflexivity|]. do 3 (split; [assumption|]).
  split; [exact Hfile|].
  intros Hd Hp. unfold fullLogBlock, logBlock, latestLine.
  destruct (last (dhcpTests w)) as [d|] eqn:Hld;
    [|apply last_None in Hld; contradiction].
  destruct (last (pingTests w)) as [p|] eqn:Hlp;
    [|apply last_None in Hlp; contradiction].
  exists d, p. auto.
Qed.

Lemma log_block_format_witness :
  exists σ',
    writeResultsToFile Sample.lib Sample.seen Sample.calm = Some (None, σ') /\
    files σ' !! "noc-watch.log"%string
      = Some (nl +:+ "=== WiFi Quality Test Results - 15000000 ===" +:+ nl
              +:+ "DHCP Test: Success=true, Time=1000000000ns" +:+ nl
              +:+ "Ping Test: Success=true, IPv4=true, IPv6=true, Latency=15000000ns"
              +:+ nl
              +:+ "Total Tests: 2, Success: 2, Success Rate: 100.00%" +:+ nl
              +:+ "DHCP Success Rate: 100.00%" +:+ nl
              +:+ "Ping Success Rate: 100.00%" +:+ nl
              +:+ "==========================================" +:+ nl).
Proof.
  eexists. split; [vm_compute; reflexivity|].
  edestruct (log_block_format Sample.lib Sample.seen Sample.calm)
    as (now & rate & dhcpRate & pingRate & -> & Hr & Hdr & Hpr & Hfile & _);
    [vm_compute; reflexivity|].
  vm_compute in Hr. injection Hr as <-.
  vm_compute in Hdr. injection Hdr as <-.
  vm_compute in Hpr. injection Hpr as <-.
  refine (eq_trans Hfile _). vm_compute. reflexivity.
Defined.

(** C6, as stated, fails: before the first test the emission succeeds and
    appends the header, the totals, the two rates and the delimiter, and no
    line of a most recent result: there is none. *)
Lemma log_block_without_results :
  exists σ',
    writeResultsToFile Sample.lib Sample.fresh Sample.calm = Some (None, σ') /\
    files σ' !! "noc-watch.log"%string
      = Some (nl +:+ "=== WiFi Quality Test Results - 15000000 ===" +:+ nl
              +:+ "Total Tests: 0, Success: 0, Success Rate: 0.00%" +:+ nl
              +:+ "DHCP Success Rate: 0.00%" +:+ nl
              +:+ "Ping Success Rate: 0.00%" +:+ nl
              +:+ "==========================================" +:+ nl) /\
    forall now rate dhcpRate pingRate text,
      ~ fullLogBlock Sample.lib Sample.fresh now rate dhcpRate pingRate text.
Proof.
  eexists. split; [vm_compute; reflexivity|].
  split; [vm_compute; reflexivity|].
  intros now rate dhcpRate pingRate text (lease & connectivity & Hlease & _).
  discriminate Hlease.
Qed.

(** C10 (amended): in an emission whose writes all succeed, the line of a
    class whose history is empty is not written at all -- the header is
    followed directly by what comes next -- while the header, the totals,
    the two rates (0.0 for the empty class) and the delimiter are written;
    with both histories empty the block has no result line. *)
Theorem empty_history_line_omitted lib w σ σ' :
  writeResultsToFile lib w σ = Some (None, σ') ->
  exists now rate dhcpRate pingRate,
    now = clock σ + took (answers σ (length (calls σ))) /\
    overallSuccessRate w = Some rate /\
    classSuccessRate (dhcpTests w) = Some dhcpRate /\
    classSuccessRate (pingTests w) = Some pingRate /\
    (dhcpTests w = [] ->
     dhcpRate = 0%float /\
     files σ' !! logFile w
       = Some (content (logFile w) σ
               +:+ headerLine (fmtDateTime lib now)
               +:+ latestLine (pingLine lib) (pingTests w)
               +:+ totalsLine lib w rate
               +:+ dhcpRateLine lib 0%float
               +:+ pingRateLine lib pingRate
               +:+ delimiterLine)) /\
    (pingTests w = [] ->
     pingRate = 0%float /\
     files σ' !! logFile w
       = Some (content (logFile w) σ
               +:+ headerLine (fmtDateTime lib now)
               +:+ latestLine (dhcpLine lib) (dhcpTests w)
               +:+ totalsLine lib w rate
               +:+ dhcpRateLine lib dhcpRate
               +:+ pingRateLine lib 0%float
               +:+ delimiterLine)) /\
    (dhcpTests w = [] -> pingTests w = [] ->
     files σ' !! logFile w
       = Some (content (logFile w) σ
               +:+ headerLine (fmtDateTime lib now)
               +:+ totalsLine lib w rate
               +:+ dhcpRateLine lib 0%float
               +:+ pingRateLine lib 0%float
               +:+ delimiterLine)).
Proof.
  intros Hwrite.
  destruct (writeResultsToFile_ok lib w σ σ' Hwrite)
    as (rate & dhcpRate & pingRate & Hr & Hdr & Hpr & Hfile).
  eexists _, rate, dhcpRate, pingRate.
  split; [reflexivity|]. do 3 (split; [assumption|]).
  unfold logBlock in Hfile.
  split; [|split].
  - intros Hd. rewrite Hd in Hdr, Hfile.
    injection Hdr as <-. split; [reflexivity | exact Hfile].
  - intros Hp. rewrite Hp in Hpr, Hfile.
    injection Hpr as <-. split; [reflexivity | exact Hfile].
  - intros Hd Hp. rewrite Hd in Hdr, Hfile. rewrite Hp in Hpr, Hfile.
    injection Hdr as <-. injection Hpr as <-. exact Hfile.
Qed.

Lemma empty_history_line_omitted_witness :
  exists σ',
    writeResultsToFile Sample.lib Sample.fresh Sample.calm = Some (None, σ') /\
    files σ' !! "noc-watch.log"%string
      = Some (nl +:+ "=== WiFi Quality Test Results - 15000000 ===" +:+ nl
              +:+ "Total Tests: 0, Success: 0, Success Rate: 0.00%" +:+ nl
              +:+ "DHCP Success Rate: 0.00%" +:+ nl
              +:+ "Ping Success Rate: 0.00%" +:+ nl
              +:+ "==========================================" +:+ nl).
Proof.
  eexists. split; [vm_compute; reflexivity|].
  edestruct (empty_history_line_omitted Sample.lib Sample.fresh Sample.calm)
    as (now & rate & dhcpRate & pingRate & -> & Hr & _ & _ & _ & _ & Hboth);
    [vm_compute; reflexivity|].
  vm_compute in Hr. injection Hr as <-.
  refine (eq_trans (Hboth eq_refl eq_refl) _). vm_compute. reflexivity.
Defined.

(** C10, as stated, fails: with both histories empty, an emission whose
    third write fails returns that error at once; the file holds the
    header and the totals, and neither the two rates nor the delimiter are
    written. *)
Lemma empty_history_block_cut_short :
  dhcpTests Sample.fresh = [] /\ pingTests Sample.fresh = [] /\
  exists σ',
    writeResultsToFile Sample.lib Sample.fresh Sample.fullDisk
      = Some (Some "write noc-watch.log: no space left on device"%string, σ') /\
    calls σ'
      = [OpenFile "noc-watch.log";
         WriteFile "noc-watch.log"
           (headerLine (fmtDateTime Sample.lib 0));
         WriteFile "noc-watch.log" (totalsLine Sample.lib Sample.fresh 0%float);
         WriteFile "noc-watch.log" (dhcpRateLine Sample.lib 0%float)] /\
    files σ' !! "noc-watch.log"%string
      = Some (nl +:+ "=== WiFi Quality Test Results - 0 ===" +:+ nl
              +:+ "Total Tests: 0, Success: 0, Success Rate: 0.00%" +:+ nl) /\
    files σ' !! "noc-watch.log"%string
      <> Some (headerLine (fmtDateTime Sample.lib 0)
               +:+ totalsLine Sample.lib Sample.fresh 0%float
               +:+ dhcpRateLine Sample.lib 0%float
               +:+ pingRateLine Sample.lib 0%float
               +:+ delimiterLine).
Proof.
  split; [reflexivity|]. split; [reflexivity|].
  eexists. split; [vm_compute; reflexivity|].
  split; [vm_compute; reflexivity|].
  split; [vm_compute; reflexivity|].
  vm_compute. discriminate.
Qed.

(** * Further properties *)

(** ** The scan of the output of ping *)

Lemma Split_nonempty s sep : Split s sep <> [].
Proof. destruct s as [|a rest]; simpl; repeat case_match; discriminate. Qed.

Lemma Split_head s sep : exists field, Split s sep !! 0%nat = Some field.
Proof.
  destruct (Split s sep) as [|field fields] eqn:Hsplit.
  - destruct (Split_nonempty s sep Hsplit).
  - exists field. reflexivity.
Qed.

Lemma Split_head_sep rest sep :
  Split (String sep rest) sep !! 0%nat = Some EmptyString.
Proof. simpl. rewrite Ascii.eqb_refl. reflexivity. Qed.

(** X1: the scan of the output of ping never indexes out of range, whatever
    the output and whatever the library functions answer: [parts[1]] is
    read under its guard, and a [strings.Split] always has a field [0]. *)
Theorem scanOutput_never_panics sc out : is_Some (scanOutput sc out).
Proof.
  unfold scanOutput. generalize (Split out (ascii_of_nat 10)) as lines.
  induction lines as [|line rest IH]; simpl; [eauto|].
  destruct (Contains line "avg"); [|exact IH].
  destruct (Z.ltb_spec 1 (len (Split line "="%char))) as [Hlen|_]; [|exact IH].
  destruct (Split line "="%char !! 1%nat) as [part|] eqn:Hpart.
  - simpl. destruct (Split_head part " "%char) as [field ->]. simpl.
    destruct (ParseFloat sc (TrimSpace sc field)); [eauto | exact IH].
  - apply lookup_ge_None in Hpart. unfold len in Hlen. lia.
Qed.

Lemma scanLines_space_after_equals sc lines :
  ParseFloat sc (TrimSpace sc EmptyString) = None ->
  forallb (fun line => implb (Contains line "avg") (spaceAfterEquals line)) lines
    = true ->
  scanLines sc lines = Some None.
Proof.
  intros Hempty. induction lines as [|line rest IH]; [reflexivity|].
  simpl. intros [Hline Hrest]%andb_prop. specialize (IH Hrest).
  destruct (Contains line "avg"); [|exact IH].
  destruct (Z.ltb_spec 1 (len (Split line "="%char))) as [Hlen|_]; [|exact IH].
  unfold spaceAfterEquals in Hline. simpl in Hline.
  destruct (Split line "="%char !! 1%nat) as [[|a tail]|] eqn:Hpart; simpl.
  - discriminate.
  - apply Ascii.eqb_eq in Hline as ->.
    rewrite Ascii.eqb_refl. simpl. rewrite Hempty. exact IH.
  - apply lookup_ge_None in Hpart. unfold len in Hlen. lia.
Qed.

(** X2: when ping succeeds and its output has a space after the "=" of
    every line that contains "avg" -- as the summary line of ping has -- the
    scan extracts nothing (the field it reads is the empty text before that
    space, which [strconv.ParseFloat] rejects), and the latency measured is
    the time the command took. *)
Theorem latency_is_running_time sc lib w σ :
  failure (answers σ (length (calls σ))) = None ->
  ParseFloat sc (TrimSpace sc EmptyString) = None ->
  summaryWithSpace (output (answers σ (length (calls σ)))) = true ->
  scanOutput sc (output (answers σ (length (calls σ)))) = Some None /\
  exists σ',
    measureLatency (withScan sc lib) w σ
      = Some (took (answers σ (length (calls σ))), σ').
Proof.
  intros Hok Hempty Hsummary.
  assert (Hscan : scanOutput sc (output (answers σ (length (calls σ)))) = Some None).
  { apply scanLines_space_after_equals; assumption. }
  split; [exact Hscan|].
  rewrite measureLatency_eq. simpl. rewrite Hok, Hscan. eauto.
Qed.

Lemma latency_is_running_time_witness :
  exists σ',
    measureLatency (withScan Sample.strconv Sample.lib) Sample.fresh
      (Sample.world Sample.noEnv [Sample.pinged])
      = Some (2018 * millisecond, σ').
Proof.
  apply (latency_is_running_time Sample.strconv Sample.lib Sample.fresh
           (Sample.world Sample.noEnv [Sample.pinged]));
    vm_compute; reflexivity.
Defined.

(** ** The monitor that [NewWiFiMonitor] builds *)

Lemma string_eqb_empty (s : string) :
  String.eqb s EmptyString = true <-> s = EmptyString.
Proof. apply String.eqb_eq. Qed.

(** X3: whatever the environment, [NewWiFiMonitor] returns an empty monitor and
    leaves the world as it is; the interface and the log file are the
    values of [WIFI_INTERFACE] and [LOG_FILE], or "wlan0" and
    "noc-watch.log" when the variable is unset or empty, so they are never
    empty; the mode is headless exactly when [HEADLESS] is "true". *)
Theorem NewWiFiMonitor_defaults σ :
  exists w,
    NewWiFiMonitor σ = Some (w, σ) /\
    dhcpTests w = [] /\ pingTests w = [] /\
    totalCount w = 0 /\ successCount w = 0 /\ app w = None /\
    wifiInterface w <> EmptyString /\ logFile w <> EmptyString /\
    (environ σ "WIFI_INTERFACE" <> EmptyString ->
     wifiInterface w = environ σ "WIFI_INTERFACE") /\
    (environ σ "WIFI_INTERFACE" = EmptyString -> wifiInterface w = "wlan0"%string) /\
    (environ σ "LOG_FILE" <> EmptyString -> logFile w = environ σ "LOG_FILE") /\
    (environ σ "LOG_FILE" = EmptyString -> logFile w = "noc-watch.log"%string) /\
    (headless w = true <-> environ σ "HEADLESS" = "true"%string).
Proof.
  unfold NewWiFiMonitor, Getenv. unfold_monad.
  eexists. split; [reflexivity|]. simpl.
  do 5 (split; [reflexivity|]).
  destruct (String.eqb_spec (environ σ "WIFI_INTERFACE") EmptyString) as [Hi|Hi];
    destruct (String.eqb_spec (environ σ "LOG_FILE") EmptyString) as [Hl|Hl];
    repeat split; try discriminate; try assumption; try reflexivity;
    try (intros; congruence);
    try (intros ?%String.eqb_eq; assumption);
    try (intros ->; reflexivity).
Qed.

Lemma NewWiFiMonitor_defaults_witness :
  exists w,
    NewWiFiMonitor (Sample.world Sample.customEnv [])
      = Some (w, Sample.world Sample.customEnv []) /\
    wifiInterface w = "wlp3s0"%string /\
    logFile w = "/var/log/noc-watch/noc-watch.log"%string /\
    headless w = false.
Proof.
  destruct (NewWiFiMonitor_defaults (Sample.world Sample.customEnv []))
    as (w & Hnew & _ & _ & _ & _ & _ & _ & _ & Hi & _ & Hl & _ & Hh).
  exists w. split; [exact Hnew|].
  split; [apply Hi; discriminate|]. split; [apply Hl; discriminate|].
  destruct (headless w); [|reflexivity].
  destruct Hh as [Hh _]. specialize (Hh eq_refl). discriminate Hh.
Defined.

(** ** The renewal of the lease *)

Lemma length_snoc {A} (l : list A) (x : A) : length (l ++ [x]) = S (length l).
Proof. rewrite length_app. simpl. lia. Qed.

Lemma with_answer_other n k r σ :
  k <> n -> answers (with_answer n r σ) k = answers σ k.
Proof.
  intros Hne. unfold with_answer. simpl.
  destruct (Nat.eqb_spec k n); [contradiction | reflexivity].
Qed.

Lemma runDHCPRenew_report w σ :
  exists σ',
    runDHCPRenew w σ
      = Some (renewReport (answers σ (S (length (calls σ))))
                          (answers σ (S (S (length (calls σ))))), σ').
Proof.
  unfold runDHCPRenew, renewReport. unfold_io. simpl.
  repeat (rewrite ?length_snoc;
          match goal with
          | |- context [match failure ?r with _ => _ end] =>
              destruct (failure r) eqn:?
          end; simpl); eauto.
  destruct (Contains _ _); simpl; eexists; repeat f_equal; lia.
Qed.

(** X4: [runDHCPRenew] reports success exactly when the renewal command
    succeeds, [cat /etc/resolv.conf] succeeds and its output contains
    "nameserver"; the time it reports is then the running time of these two
    commands -- not of the release, nor of the pause of two seconds -- and
    is zero otherwise.  Whatever the release answers, error or not, the
    report is the same. *)
Theorem runDHCPRenew_outcome w σ :
  let n := length (calls σ) in
  let renewal := answers σ (S n) in
  let resolv := answers σ (S (S n)) in
  exists d ok σ',
    runDHCPRenew w σ = Some ((d, ok), σ') /\
    (ok = true <->
     failure renewal = None /\ failure resolv = None /\
     Contains (output resolv) "nameserver" = true) /\
    (ok = true -> d = took renewal + took resolv) /\
    (ok = false -> d = 0) /\
    (forall release,
       exists σ'', runDHCPRenew w (with_answer n release σ) = Some ((d, ok), σ'')).
Proof.
  intros n renewal resolv.
  destruct (runDHCPRenew_report w σ) as (σ' & Hrun).
  fold n renewal resolv in Hrun.
  assert (Hsame : forall release, exists σ'',
             runDHCPRenew w (with_answer n release σ)
               = Some (renewReport renewal resolv, σ'')).
  { intros release.
    destruct (runDHCPRenew_report w (with_answer n release σ)) as (σ'' & Hrun').
    exists σ''. rewrite Hrun'.
    change (calls (with_answer n release σ)) with (calls σ). fold n.
    rewrite !with_answer_other by lia. reflexivity. }
  revert Hrun Hsame. unfold renewReport.
  destruct (failure renewal), (failure resolv),
    (Contains (output resolv) "nameserver"); intros Hrun Hsame;
    do 3 eexists; (split; [exact Hrun|]);
    (split; [split; [try discriminate; auto | intros (? & ? & ?); congruence]|]);
    (split; [try discriminate; auto|]); (split; [try discriminate; auto|]);
    exact Hsame.
Qed.

Lemma runDHCPRenew_outcome_witness :
  exists σ',
    runDHCPRenew Sample.fresh Sample.calm = Some ((30 * millisecond, true), σ').
Proof.
  destruct (runDHCPRenew_outcome Sample.fresh Sample.calm)
    as (d & ok & σ' & Hrun & Hok & Htime & _).
  exists σ'. rewrite Hrun.
  destruct Hok as [_ Hok]. rewrite Hok in * by (repeat split; vm_compute; reflexivity).
  rewrite Htime by reflexivity. vm_compute. reflexivity.
Defined.

(** ** What the parts of the program do to the world *)

Lemma tookSum_app a from c1 c2 :
  tookSum a from (c1 + c2) = tookSum a from c1 + tookSum a (from + c1) c2.
Proof.
  revert from. induction c1 as [|c1 IH]; intros from; simpl.
  - rewrite Nat.add_0_r. reflexivity.
  - rewrite IH. replace (S from + c1)%nat with (from + S c1)%nat by lia. lia.
Qed.

Lemma tookSum_nonneg a from count :
  (forall n, 0 <= took (a n)) -> 0 <= tookSum a from count.
Proof.
  intros Hsteady. revert from. induction count as [|count IH]; intros from; simpl.
  - lia.
  - specialize (Hsteady from). specialize (IH (S from)). lia.
Qed.

#[local] Instance elapses_refl : Reflexive elapses.
Proof.
  intros σ. split; [reflexivity|]. split; [reflexivity|].
  exists [], 0. rewrite app_nil_r. simpl. repeat split; lia.
Qed.

#[local] Instance elapses_trans : Transitive elapses.
Proof.
  intros σ σ1 σ2 (Ha1 & He1 & cs1 & p1 & Hp1 & Hc1 & Ht1)
    (Ha2 & He2 & cs2 & p2 & Hp2 & Hc2 & Ht2).
  split; [congruence|]. split; [congruence|].
  exists (cs1 ++ cs2), (p1 + p2). split; [lia|].
  split; [rewrite Hc2, Hc1, app_assoc; reflexivity|].
  rewrite Ht2, Ht1, Ha1, Hc1, !length_app, tookSum_app. lia.
Qed.

Lemma elapses_clock σ σ' : elapses σ σ' -> steady σ -> clock σ <= clock σ'.
Proof.
  intros (_ & _ & cs & pause & Hpause & _ & Hclock) Hsteady.
  pose proof (tookSum_nonneg (answers σ) (length (calls σ)) (length cs) Hsteady).
  lia.
Qed.

Lemma elapses_steady σ σ' : elapses σ σ' -> steady σ -> steady σ'.
Proof. intros (Ha & _) Hsteady n. rewrite Ha. apply Hsteady. Qed.

#[local] Instance probes_refl : Reflexive probes.
Proof. intros σ. split; [apply elapses_refl | auto]. Qed.

#[local] Instance probes_trans : Transitive probes.
Proof.
  intros σ σ1 σ2 (H1 & Hf1 & Ho1 & Hq1) (H2 & Hf2 & Ho2 & Hq2).
  split; [etransitivity; eassumption|]. repeat split; congruence.
Qed.

Lemma appends_same path σ σ' : files σ' = files σ -> appends path σ σ'.
Proof.
  intros Hf. split; [intros; rewrite Hf; reflexivity|].
  split; [rewrite Hf; auto|]. exists EmptyString.
  unfold content. rewrite Hf, string_app_nil_r. reflexivity.
Qed.

#[local] Instance appends_refl path : Reflexive (appends path).
Proof. intros σ. apply appends_same. reflexivity. Qed.

#[local] Instance appends_trans path : Transitive (appends path).
Proof.
  intros σ σ1 σ2 (Ho1 & He1 & s1 & Hs1) (Ho2 & He2 & s2 & Hs2).
  split; [|split].
  - intros other Hne. rewrite Ho2, Ho1 by assumption. reflexivity.
  - auto.
  - exists (s1 +:+ s2). rewrite Hs2, Hs1, string_app_assoc. reflexivity.
Qed.

Lemma elapses_same σ σ' :
  answers σ' = answers σ -> environ σ' = environ σ -> calls σ' = calls σ ->
  clock σ' = clock σ -> elapses σ σ'.
Proof.
  intros Ha He Hc Ht. split; [exact Ha|]. split; [exact He|].
  exists [], 0. rewrite app_nil_r. simpl. repeat split; [lia | exact Hc | lia].
Qed.

#[local] Instance emits_refl path : Reflexive (emits path).
Proof.
  intros σ. split; [apply elapses_refl|]. split; [apply appends_refl | auto].
Qed.

#[local] Instance emits_trans path : Transitive (emits path).
Proof.
  intros σ σ1 σ2 (H1 & Hf1 & Ho1 & Hq1) (H2 & Hf2 & Ho2 & Hq2).
  split; [etransitivity; eassumption|].
  split; [etransitivity; eassumption|]. split; congruence.
Qed.

#[local] Instance runs_refl path : Reflexive (runs path).
Proof.
  intros σ. split; [apply elapses_refl|]. split; [apply appends_refl|].
  split; [exists []|exists []]; rewrite app_nil_r; auto.
Qed.

#[local] Instance runs_trans path : Transitive (runs path).
Proof.
  intros σ σ1 σ2 (H1 & Hf1 & (l1 & Ho1 & Hl1) & q1 & Hq1)
    (H2 & Hf2 & (l2 & Ho2 & Hl2) & q2 & Hq2).
  split; [etransitivity; eassumption|].
  split; [etransitivity; eassumption|]. split.
  - exists (l1 ++ l2). rewrite Ho2, Ho1, app_assoc. split; [reflexivity|].
    apply Forall_app. auto.
  - exists (q1 ++ q2). rewrite Hq2, Hq1, app_assoc. reflexivity.
Qed.

Lemma probes_emits path σ σ' : probes σ σ' -> emits path σ σ'.
Proof.
  intros (H & Hf & Ho & Hq). split; [exact H|]. split; [|auto].
  apply appends_same, Hf.
Qed.

Lemma emits_runs path σ σ' : emits path σ σ' -> runs path σ σ'.
Proof.
  intros (H & Hf & Ho & Hq). split; [exact H|]. split; [exact Hf|].
  split; [exists []|exists []]; rewrite app_nil_r; auto.
Qed.

Lemma preserves_ret {A} (R : relation World) `{!Reflexive R} (a : A) :
  preserves R (mret a).
Proof. intros σ b σ' H. unfold_monad. simplify_eq. reflexivity. Qed.

Lemma preserves_bind {A B} (R : relation World) `{!Transitive R}
    (m : M A) (k : A -> M B) :
  preserves R m -> (forall a, preserves R (k a)) -> preserves R (m ≫= k).
Proof.
  intros Hm Hk σ b σ' H. apply bind_ok in H as (a & σ1 & H1 & H2).
  etransitivity; [eapply Hm, H1 | eapply Hk, H2].
Qed.

Lemma preserves_orReturn (R : relation World) `{!Reflexive R} `{!Transitive R}
    (m k : M error) :
  preserves R m -> preserves R k -> preserves R (orReturn m k).
Proof.
  intros Hm Hk. unfold orReturn. apply preserves_bind; [assumption | exact Hm |].
  intros [e|]; [apply preserves_ret; assumption | exact Hk].
Qed.

Lemma preserves_neutral {A} (R : relation World) `{!Reflexive R} (m : M A) :
  neutral m -> preserves R m.
Proof. intros Hm σ a σ' H. rewrite (Hm σ a σ' H). reflexivity. Qed.

Lemma preserves_weaken {A} (R R' : relation World) (m : M A) :
  (forall σ σ', R σ σ' -> R' σ σ') -> preserves R m -> preserves R' m.
Proof. intros Hsub Hm σ a σ' H. apply Hsub. eapply Hm, H. Qed.

Lemma neutral_Now : neutral Now.
Proof. intros σ a σ' H. unfold Now in H. simplify_eq. reflexivity. Qed.

Lemma neutral_Since start : neutral (Since start).
Proof. intros σ a σ' H. unfold Since in H. simplify_eq. reflexivity. Qed.

Lemma neutral_liftO {A} (o : option A) : neutral (liftO o).
Proof. intros σ a σ' H. apply liftO_ok in H as [_ ->]. reflexivity. Qed.

Lemma neutral_index {A} (s : list A) i : neutral (index s i).
Proof.
  intros σ a σ' H. unfold index in H.
  destruct (0 <=? i); [apply neutral_liftO in H; exact H | discriminate].
Qed.

Lemma external_elapses c σ r σ' :
  external c σ = Some (r, σ') ->
  r = answers σ (length (calls σ)) /\ elapses σ σ' /\
  calls σ' = calls σ ++ [c] /\
  files σ' = files σ /\ stdout σ' = stdout σ /\ uiQueue σ' = uiQueue σ.
Proof.
  unfold external. intros H. simplify_eq. simpl.
  split; [reflexivity|]. split; [|auto].
  split; [reflexivity|]. split; [reflexivity|].
  exists [c], 0. simpl. repeat split; lia.
Qed.

Lemma probes_cmdRun argv : preserves probes (cmdRun argv).
Proof.
  intros σ e σ' H. unfold cmdRun in H.
  apply bind_ok in H as (r & σ1 & Hext & Hret). unfold_monad. simplify_eq.
  apply external_elapses in Hext as (_ & He & _ & Hf & Ho & Hq).
  split; [exact He | auto].
Qed.

Lemma probes_cmdOutput argv : preserves probes (cmdOutput argv).
Proof.
  intros σ e σ' H. unfold cmdOutput in H.
  apply bind_ok in H as (r & σ1 & Hext & Hret). unfold_monad. simplify_eq.
  apply external_elapses in Hext as (_ & He & _ & Hf & Ho & Hq).
  split; [exact He | auto].
Qed.

Lemma probes_Sleep d : 0 <= d -> preserves probes (Sleep d).
Proof.
  intros Hd σ [] σ' H. unfold Sleep in H. simplify_eq.
  split; [|auto]. split; [reflexivity|]. split; [reflexivity|].
  exists [], d. rewrite app_nil_r. simpl. repeat split; lia.
Qed.

Lemma probes_runDHCPRenew w : preserves probes (runDHCPRenew w).
Proof.
  unfold runDHCPRenew.
  apply preserves_bind; [apply _ | apply probes_cmdRun | intros _].
  apply preserves_bind;
    [apply _ | apply probes_Sleep; unfold second; lia | intros _].
  apply preserves_bind;
    [apply _ | apply preserves_neutral, neutral_Now; apply _ | intros start].
  apply preserves_bind; [apply _ | apply probes_cmdRun | intros [e|]].
  { apply preserves_ret, _. }
  apply preserves_bind; [apply _ | apply probes_cmdOutput | intros [out [e|]]].
  { apply preserves_ret, _. }
  destruct (negb (Contains out "nameserver")); [apply preserves_ret, _|].
  apply preserves_bind;
    [apply _ | apply preserves_neutral, neutral_Since; apply _ | intros d].
  apply preserves_ret, _.
Qed.

Lemma probes_checkIPv4Connectivity w : preserves probes (checkIPv4Connectivity w).
Proof.
  unfold checkIPv4Connectivity.
  apply preserves_bind; [apply _ | apply probes_cmdRun | intros e].
  apply preserves_ret, _.
Qed.

Lemma probes_checkIPv6Connectivity w : preserves probes (checkIPv6Connectivity w).
Proof.
  unfold checkIPv6Connectivity.
  apply preserves_bind; [apply _ | apply probes_cmdRun | intros e].
  apply preserves_ret, _.
Qed.

Lemma probes_measureLatency lib w : preserves probes (measureLatency lib w).
Proof.
  unfold measureLatency.
  apply preserves_bind;
    [apply _ | apply preserves_neutral, neutral_Now; apply _ | intros start].
  apply preserves_bind; [apply _ | apply probes_cmdOutput | intros [out [e|]]].
  { apply preserves_ret, _. }
  destruct (parseAvgLatency lib out); [apply preserves_ret, _|].
  apply preserves_neutral, neutral_Since; apply _.
Qed.

Lemma probes_runTest lib w : preserves probes (runTest lib w).
Proof.
  unfold runTest.
  apply preserves_bind;
    [apply _ | apply preserves_neutral, neutral_Now; apply _ | intros timestamp].
  apply preserves_bind; [apply _ | apply probes_runDHCPRenew | intros [d ok]].
  apply preserves_bind; [apply _ | apply probes_checkIPv4Connectivity | intros v4].
  apply preserves_bind; [apply _ | apply probes_checkIPv6Connectivity | intros v6].
  apply preserves_bind; [apply _ | apply probes_measureLatency | intros lat].
  apply preserves_ret, _.
Qed.

Lemma probes_runConnectivityTest lib w :
  preserves probes (runConnectivityTest lib w).
Proof.
  unfold runConnectivityTest.
  apply preserves_bind;
    [apply _ | apply preserves_neutral, neutral_Now; apply _ | intros timestamp].
  apply preserves_bind; [apply _ | apply probes_checkIPv4Connectivity | intros v4].
  apply preserves_bind; [apply _ | apply probes_checkIPv6Connectivity | intros v6].
  apply preserves_bind; [apply _ | apply probes_measureLatency | intros lat].
  apply preserves_ret, _.
Qed.

(** ** The commands of a test *)

Lemma runDHCPRenew_commands w σ r σ1 :
  runDHCPRenew w σ = Some (r, σ1) ->
  answers σ1 = answers σ /\
  ((failure (answers σ (S (length (calls σ)))) <> None /\
    calls σ1 = calls σ ++ [releaseCmd w; renewCmd w] /\
    clock σ1 = clock σ + 2 * second
               + tookSum (answers σ) (length (calls σ)) 2) \/
   (failure (answers σ (S (length (calls σ)))) = None /\
    calls σ1 = calls σ ++ [releaseCmd w; renewCmd w; resolvCmd] /\
    clock σ1 = clock σ + 2 * second
               + tookSum (answers σ) (length (calls σ)) 3)).
Proof.
  unfold runDHCPRenew. unfold_io. simpl. rewrite !length_snoc. intros H.
  destruct (failure (answers σ (S (length (calls σ))))) as [e|] eqn:Hrenew;
    simpl in H.
  - simplify_eq. simpl. split; [reflexivity|]. left.
    rewrite <- app_assoc. repeat split; [discriminate | lia].
  - rewrite !length_snoc in H.
    assert (calls σ1 = calls σ ++ [releaseCmd w; renewCmd w; resolvCmd]
            /\ answers σ1 = answers σ
            /\ clock σ1 = clock σ + 2 * second
                          + tookSum (answers σ) (length (calls σ)) 3)
      as (Hc & Ha & Ht).
    { repeat (case_match; simplify_eq/=); rewrite <- !app_assoc;
        repeat split; lia. }
    split; [exact Ha|]. right. auto.
Qed.

(** X5: a lease test runs, in this order, the release, the renewal,
    [cat /etc/resolv.conf] if and only if the renewal succeeded, the IPv4
    ping, the IPv6 ping and the three pings of the latency -- whatever the
    earlier ones answered -- and it takes two seconds more than these
    commands take together. *)
Theorem runTest_commands lib w σ test σ' :
  runTest lib w σ = Some (test, σ') ->
  let renewed :=
    match failure (answers σ (S (length (calls σ)))) with
    | None => true
    | Some _ => false
    end in
  newCalls σ σ'
    = [releaseCmd w; renewCmd w] ++ (if renewed then [resolvCmd] else [])
      ++ [ping4Cmd w; ping6Cmd w; latencyCmd w] /\
  clock σ' = clock σ + 2 * second
             + tookSum (answers σ) (length (calls σ)) (length (newCalls σ σ')).
Proof.
  intros Hrun renewed. subst renewed.
  destruct (runDHCPRenew w σ) as [[[d ok] σ1]|] eqn:H1;
    [|unfold runTest, Now in Hrun; unfold_monad; rewrite H1 in Hrun; discriminate].
  erewrite runTest_steps in Hrun;
    [| exact H1 | apply checkIPv4Connectivity_eq | apply checkIPv6Connectivity_eq
     | apply measureLatency_eq ].
  apply runDHCPRenew_commands in H1 as (Ha & Hcases).
  simplify_eq. unfold newCalls. simpl. rewrite !length_snoc, !Ha.
  destruct Hcases as [(Hrenew & Hc & Ht) | (Hrenew & Hc & Ht)];
    rewrite Hc, Ht, <- !app_assoc, drop_app_length, length_app; simpl;
    (destruct (failure (answers σ (S (length (calls σ))))); [|congruence || idtac]);
    try congruence; simpl;
    (split; [reflexivity|]);
    repeat (rewrite ?Nat.add_succ_r, ?Nat.add_0_r); lia.
Qed.

Lemma runTest_commands_witness :
  exists test σ',
    runTest Sample.lib Sample.fresh Sample.renewFails = Some (test, σ') /\
    newCalls Sample.renewFails σ'
      = [releaseCmd Sample.fresh; renewCmd Sample.fresh; ping4Cmd Sample.fresh;
         ping6Cmd Sample.fresh; latencyCmd Sample.fresh] /\
    clock σ' = 2045 * millisecond.
Proof.
  do 2 eexists. split; [vm_compute; reflexivity|].
  edestruct (runTest_commands Sample.lib Sample.fresh Sample.renewFails)
    as [Hcalls Hclock]; [vm_compute; reflexivity|].
  split; [exact Hcalls|]. rewrite Hclock. vm_compute. reflexivity.
Defined.

(** X6: a connectivity test runs the IPv4 ping, the IPv6 ping and the three
    pings of the latency, in this order and whatever each answers; it never
    releases or renews the lease; and it takes the time these three
    commands take. *)
Theorem runConnectivityTest_commands lib w σ test σ' :
  runConnectivityTest lib w σ = Some (test, σ') ->
  newCalls σ σ' = [ping4Cmd w; ping6Cmd w; latencyCmd w] /\
  List.filter isRenew (newCalls σ σ') = [] /\
  (releaseCmd w ∉ newCalls σ σ') /\
  clock σ' = clock σ + tookSum (answers σ) (length (calls σ)) 3.
Proof.
  intros Hrun.
  erewrite runConnectivityTest_steps in Hrun;
    [| apply checkIPv4Connectivity_eq | apply checkIPv6Connectivity_eq
     | apply measureLatency_eq ].
  simplify_eq. unfold newCalls. simpl.
  rewrite <- !app_assoc, drop_app_length, !length_app. simpl.
  split; [reflexivity|]. split; [reflexivity|].
  split.
  - unfold releaseCmd, ping4Cmd, ping6Cmd, latencyCmd.
    rewrite !elem_of_cons, elem_of_nil.
    intros [H | [H | [H | []]]]; discriminate H.
  - repeat (rewrite ?Nat.add_succ_r, ?Nat.add_0_r). lia.
Qed.

Lemma runConnectivityTest_commands_witness :
  exists test σ',
    runConnectivityTest Sample.lib Sample.fresh Sample.calm = Some (test, σ') /\
    length (newCalls Sample.calm σ') = 3%nat /\ clock σ' = 45 * millisecond.
Proof.
  do 2 eexists. split; [vm_compute; reflexivity|].
  edestruct (runConnectivityTest_commands Sample.lib Sample.fresh Sample.calm)
    as (Hcalls & _ & _ & Hclock); [vm_compute; reflexivity|].
  rewrite Hcalls, Hclock. split; vm_compute; reflexivity.
Defined.

(** ** A probe that fails *)






(** ** What the dashboard and the emission do to the world *)

Lemma renderLog_neutral lib w : neutral (renderLog lib w).
Proof.
  intros σ a σ'. unfold renderLog, index. unfold_io.
  intros H. repeat (case_match; simplify_eq/=); reflexivity.
Qed.

(** The dashboard queues one update, in TUI mode, and does nothing else. *)
Lemma updateUI_effect lib w σ u σ' :
  updateUI lib w σ = Some (u, σ') ->
  (headless w = true /\ σ' = σ) \/
  (headless w = false /\ exists screen, σ' = enqueue screen σ).
Proof.
  unfold updateUI. destruct (headless w).
  { unfold_monad. intros H. simplify_eq. auto. }
  intros H. right. split; [reflexivity|].
  apply bind_ok in H as (rate & σ1 & H1 & H). apply neutral_liftO in H1 as ->.
  apply bind_ok in H as (dr & σ1 & H1 & H). apply neutral_liftO in H1 as ->.
  apply bind_ok in H as (pr & σ1 & H1 & H). apply neutral_liftO in H1 as ->.
  apply bind_ok in H as (now & σ1 & H1 & H). apply neutral_Now in H1 as ->.
  apply bind_ok in H as (text & σ1 & H1 & H). apply renderLog_neutral in H1 as ->.
  unfold QueueUpdateDraw in H. destruct (app w); [|discriminate].
  simplify_eq. eauto.
Qed.

Lemma updateUI_runs lib w path : preserves (runs path) (updateUI lib w).
Proof.
  intros σ u σ' H.
  apply updateUI_effect in H as [[_ ->] | (_ & screen & ->)]; [reflexivity|].
  split; [|split; [|split]].
  - apply elapses_same; reflexivity.
  - apply appends_same. reflexivity.
  - exists []. rewrite app_nil_r. auto.
  - exists [screen]. reflexivity.
Qed.

Lemma elapses_set_files f σ σ' : elapses σ σ' -> elapses σ (set_files f σ').
Proof.
  intros (Ha & Hv & cs & pause & Hp & Hc & Ht).
  split; [exact Ha|]. split; [exact Hv|]. exists cs, pause. auto.
Qed.

Lemma emits_openAppend path : preserves (emits path) (openAppend path).
Proof.
  intros σ e σ' H. unfold openAppend in H.
  apply bind_ok in H as (r & σ1 & Hext & H).
  apply external_elapses in Hext as (-> & He & _ & Hf & Ho & Hq).
  destruct (failure _); unfold_monad; simplify_eq.
  - apply probes_emits. split; [exact He | auto].
  - split; [apply elapses_set_files, He|]. split; [|auto].
    split; [|split]; simpl.
    + intros other Hne. rewrite lookup_insert_ne by congruence.
      rewrite Hf. reflexivity.
    + intros _. rewrite lookup_insert_eq. eauto.
    + exists EmptyString. unfold content. simpl.
      rewrite lookup_insert_eq, Hf, string_app_nil_r. reflexivity.
Qed.

Lemma emits_Fprintf path data : preserves (emits path) (Fprintf path data).
Proof.
  intros σ e σ' H. unfold Fprintf in H.
  apply bind_ok in H as (r & σ1 & Hext & H).
  apply external_elapses in Hext as (-> & He & _ & Hf & Ho & Hq).
  simpl in H. destruct (failure _); simplify_eq;
    (split; [apply elapses_set_files, He|]; split; [|auto];
     split; [|split]; simpl;
     [ intros other Hne; rewrite lookup_insert_ne by congruence;
       rewrite Hf; reflexivity
     | intros _; rewrite lookup_insert_eq; eauto
     | eexists; unfold content; simpl;
       rewrite lookup_insert_eq, Hf; reflexivity ]).
Qed.

Lemma emits_latest_write path line (tests : list WiFiTest) :
  preserves (emits path)
    (if 0 <? len tests
     then test ← index tests (len tests - 1); Fprintf path (line test)
     else mret None).
Proof.
  destruct (0 <? len tests); [|apply preserves_ret, _].
  apply preserves_bind;
    [apply _ | apply preserves_neutral, neutral_index; apply _ | intros test].
  apply emits_Fprintf.
Qed.

(** The steps of [writeResultsToFile] after the opening. *)
Ltac emits_block :=
  apply preserves_bind;
    [apply _ | apply preserves_neutral, neutral_Now; apply _ | intros ?];
  apply preserves_orReturn; [apply _ | apply _ | apply emits_Fprintf|];
  apply preserves_orReturn; [apply _ | apply _ | apply emits_latest_write|];
  apply preserves_orReturn; [apply _ | apply _ | apply emits_latest_write|];
  do 3 (apply preserves_bind;
          [apply _ | apply preserves_neutral, neutral_liftO; apply _ | intros ?]);
  do 3 (apply preserves_orReturn; [apply _ | apply _ | apply emits_Fprintf|]);
  apply emits_Fprintf.

Lemma emits_writeResultsToFile lib w :
  preserves (emits (logFile w)) (writeResultsToFile lib w).
Proof.
  unfold writeResultsToFile.
  apply preserves_orReturn; [apply _ | apply _ | apply emits_openAppend|].
  emits_block.
Qed.

Lemma orReturn_inv (m k : M error) σ result σ' :
  orReturn m k σ = Some (result, σ') ->
  (exists e, m σ = Some (Some e, σ') /\ result = Some e) \/
  (exists σ1, m σ = Some (None, σ1) /\ k σ1 = Some (result, σ')).
Proof.
  unfold orReturn. unfold_monad. intros H.
  destruct (m σ) as [[[e|] σ1]|]; simplify_eq; eauto.
Qed.

(** X7: whatever its outcome -- complete, or stopped by an error at the
    opening or at any write -- an emission only adds to the end of the log
    file: what the file held before is still there, in front; no other
    file changes; nothing is printed and nothing is queued for the
    dashboard.  When the opening fails no file changes; when it succeeds
    the log file exists afterwards, even if every write fails. *)
Theorem emission_appends_only lib w σ result σ' :
  writeResultsToFile lib w σ = Some (result, σ') ->
  (exists suffix, content (logFile w) σ' = content (logFile w) σ +:+ suffix) /\
  (forall other, other <> logFile w -> files σ' !! other = files σ !! other) /\
  stdout σ' = stdout σ /\ uiQueue σ' = uiQueue σ /\
  (failure (answers σ (length (calls σ))) = None ->
   is_Some (files σ' !! logFile w)) /\
  (failure (answers σ (length (calls σ))) <> None ->
   files σ' = files σ /\ result = failure (answers σ (length (calls σ)))).
Proof.
  intros Hwrite.
  pose proof (emits_writeResultsToFile lib w σ result σ' Hwrite)
    as (_ & (Hothers & _ & Hsuffix) & Hout & Hqueue).
  do 4 (split; [assumption|]).
  unfold writeResultsToFile in Hwrite.
  apply orReturn_inv in Hwrite as [(e & Hopen & ->) | (σ1 & Hopen & Hrest)];
    unfold openAppend in Hopen;
    apply bind_ok in Hopen as (r & σ0 & Hext & Hopen);
    apply external_elapses in Hext as (-> & _ & _ & Hf & _ & _);
    destruct (failure (answers σ (length (calls σ)))) as [msg|] eqn:Hfail;
    unfold mret, M_ret in Hopen; simplify_eq.
  - split; [discriminate | intros _; split; [exact Hf | reflexivity]].
  - split; [intros _ | congruence].
    match type of Hrest with ?k _ = _ =>
      assert (Hblock : preserves (emits (logFile w)) k) by emits_block
    end.
    apply Hblock in Hrest as (_ & (_ & Hexists & _) & _).
    apply Hexists. simpl. rewrite lookup_insert_eq. eauto.
Qed.

Lemma emission_appends_only_witness :
  exists σ',
    writeResultsToFile Sample.lib Sample.fresh Sample.readOnly
      = Some (Some "open noc-watch.log: permission denied"%string, σ') /\
    files σ' = files Sample.readOnly.
Proof.
  eexists. split; [vm_compute; reflexivity|].
  edestruct (emission_appends_only Sample.lib Sample.fresh Sample.readOnly)
    as (_ & _ & _ & _ & _ & Hfail); [vm_compute; reflexivity|].
  apply Hfail. vm_compute. discriminate.
Defined.

(** ** The writes of an emission *)

Lemma joined_app a b : joined (a ++ b) = joined a +:+ joined b.
Proof.
  induction a as [|x a IH]; [reflexivity|].
  simpl. unfold joined in *. simpl. rewrite IH, string_app_assoc. reflexivity.
Qed.

Lemma writing_ret path : writing path (mret None).
Proof.
  intros σ r σ' H. unfold_monad. simplify_eq.
  split; [reflexivity|]. exists []. simpl.
  rewrite app_nil_r, string_app_nil_r. repeat split. intros k Hk. lia.
Qed.

Lemma writing_Fprintf path data : writing path (Fprintf path data).
Proof.
  intros σ result σ' H. unfold Fprintf in H.
  apply bind_ok in H as (r & σ1 & Hext & H).
  apply external_elapses in Hext as (-> & (Ha & _) & Hc & Hf & _ & _).
  assert (Hlast : (length (calls σ) + 1 - 1 = length (calls σ))%nat) by lia.
  simpl in H.
  destruct (failure (answers σ (length (calls σ)))) as [e|] eqn:Hfail;
    simplify_eq.
  - split; [exact Ha|]. exists [data]. simpl. rewrite Hlast, Hfail. simpl.
    split; [exact Hc|]. split; [intros k Hk; lia|]. split; [reflexivity|].
    unfold content. simpl. rewrite lookup_insert_eq, Hf. reflexivity.
  - split; [exact Ha|]. exists [data]. simpl. rewrite Hlast, Hfail. simpl.
    split; [exact Hc|]. split; [intros k Hk; lia|]. split; [reflexivity|].
    unfold content, joined. simpl.
    rewrite lookup_insert_eq, Hf, string_app_nil_r. reflexivity.
Qed.

Lemma writing_neutral {A} path (m : M A) (k : A -> M error) :
  neutral m -> (forall a, writing path (k a)) -> writing path (m ≫= k).
Proof.
  intros Hm Hk σ result σ' H. apply bind_ok in H as (a & σ1 & H1 & H2).
  apply Hm in H1 as ->. eapply Hk, H2.
Qed.

Lemma writing_orReturn path (m k : M error) :
  writing path m -> writing path k -> writing path (orReturn m k).
Proof.
  intros Hm Hk σ result σ' H.
  apply orReturn_inv in H as [(e & H1 & ->) | (σ1 & H1 & H2)];
    [eapply Hm, H1|].
  apply Hm in H1 as (Ha1 & ds1 & Hc1 & Hok1 & Hr1 & Ht1).
  apply Hk in H2 as (Ha2 & ds2 & Hc2 & Hok2 & Hr2 & Ht2).
  assert (Hlen : length (calls σ1) = (length (calls σ) + length ds1)%nat).
  { rewrite Hc1, length_app, length_map. reflexivity. }
  rewrite Ha1, Hlen in Hok2, Hr2, Ht2.
  split; [congruence|]. exists (ds1 ++ ds2).
  split; [rewrite Hc2, Hc1, map_app, app_assoc; reflexivity|].
  split; [|split].
  - intros k0 Hk0. rewrite length_app in Hk0.
    destruct (decide (S k0 < length ds1)%nat) as [Hin|Hout]; [auto|].
    destruct (decide (S k0 = length ds1)) as [Hlast|Hnot].
    + destruct ds1 as [|d1 ds1]; [discriminate|].
      rewrite Hr1. f_equal. f_equal. simpl in *. lia.
    + replace (length (calls σ) + k0)%nat
        with (length (calls σ) + length ds1 + (k0 - length ds1))%nat by lia.
      apply Hok2. lia.
  - destruct ds2 as [|d2 ds2].
    + rewrite app_nil_r. rewrite Hr2.
      destruct ds1; [reflexivity|]. exact Hr1.
    + rewrite Hr2. destruct ds1 as [|d1 ds1]; simpl.
      * f_equal. f_equal. lia.
      * rewrite length_app. simpl. f_equal. f_equal. lia.
  - rewrite Ht2, Ht1, string_app_assoc. f_equal. unfold gained at 1.
    destruct result as [e|]; unfold gained.
    + destruct ds2 as [|d2 ds2]; [discriminate Hr2|].
      rewrite removelast_app by discriminate.
      rewrite joined_app, string_app_assoc, last_app, length_app.
      destruct (last (d2 :: ds2)) as [y|] eqn:Hlast;
        [|apply last_None in Hlast; discriminate Hlast].
      replace (length (calls σ) + (length ds1 + length (d2 :: ds2)) - 1)%nat
        with (length (calls σ) + length ds1 + length (d2 :: ds2) - 1)%nat
        by (simpl; lia).
      reflexivity.
    + apply eq_sym, joined_app.
Qed.

Lemma writing_latest_write path line (tests : list WiFiTest) :
  writing path
    (if 0 <? len tests
     then test ← index tests (len tests - 1); Fprintf path (line test)
     else mret None).
Proof.
  destruct (0 <? len tests); [|apply writing_ret].
  apply writing_neutral; [apply neutral_index|].
  intros test. apply writing_Fprintf.
Qed.

(** What follows the opening of the file, in an emission. *)
Lemma writing_block lib w :
  writing (logFile w)
    (now ← Now;
     try! Fprintf (logFile w) (headerLine (fmtDateTime lib now));
     try! (if 0 <? len (dhcpTests w) then
             latest ← index (dhcpTests w) (len (dhcpTests w) - 1);
             Fprintf (logFile w) (dhcpLine lib latest)
           else mret None);
     try! (if 0 <? len (pingTests w) then
             latest ← index (pingTests w) (len (pingTests w) - 1);
             Fprintf (logFile w) (pingLine lib latest)
           else mret None);
     dhcpSuccessRate ← liftO (classSuccessRate (dhcpTests w));
     pingSuccessRate ← liftO (classSuccessRate (pingTests w));
     successRate ← liftO (overallSuccessRate w);
     try! Fprintf (logFile w) (totalsLine lib w successRate);
     try! Fprintf (logFile w) (dhcpRateLine lib dhcpSuccessRate);
     try! Fprintf (logFile w) (pingRateLine lib pingSuccessRate);
     Fprintf (logFile w) delimiterLine).
Proof.
  apply writing_neutral; [apply neutral_Now | intros now].
  apply writing_orReturn; [apply writing_Fprintf|].
  apply writing_orReturn; [apply writing_latest_write|].
  apply writing_orReturn; [apply writing_latest_write|].
  do 3 (apply writing_neutral; [apply neutral_liftO | intros ?]).
  do 3 (apply writing_orReturn; [apply writing_Fprintf|]).
  apply writing_Fprintf.
Qed.

(** X8: an emission opens the log file and then only writes to it; it stops
    at the first call that fails: every call before the last one
    succeeded, and the result of the emission is what the last call
    answered, an error or none.  The file gains the texts of the writes
    that succeeded, in their order, followed -- when the last write failed
    -- by the first bytes of its text, as many as that write reports to
    have written: an emission that fails leaves the beginning of a block
    in the file, which may end in the middle of a line. *)
Theorem emission_stops_at_failure lib w σ result σ' :
  writeResultsToFile lib w σ = Some (result, σ') ->
  exists texts,
    calls σ'
      = calls σ ++ OpenFile (logFile w) :: map (WriteFile (logFile w)) texts /\
    (forall k, (k < length texts)%nat ->
               failure (answers σ (length (calls σ) + k)) = None) /\
    result = failure (answers σ (length (calls σ) + length texts)) /\
    content (logFile w) σ'
      = content (logFile w) σ
        +:+ gained (answers σ (length (calls σ) + length texts)) texts result.
Proof.
  intros Hwrite. unfold writeResultsToFile in Hwrite.
  apply orReturn_inv in Hwrite as [(e & Hopen & ->) | (σ1 & Hopen & Hrest)].
  - unfold openAppend in Hopen.
    apply bind_ok in Hopen as (r & σ0 & Hext & Hopen).
    apply external_elapses in Hext as (-> & _ & Hc & Hf & _ & _).
    destruct (failure (answers σ (length (calls σ)))) as [msg|] eqn:Hfail;
      unfold mret, M_ret in Hopen; simplify_eq.
    exists []. simpl. rewrite Nat.add_0_r, Hfail.
    split; [exact Hc|]. split; [intros k Hk; lia|]. split; [reflexivity|].
    unfold content. destruct (written _); rewrite Hf, !string_app_nil_r;
      reflexivity.
  - pose proof (writing_block lib w) as Hblock.
    apply Hblock in Hrest as (Ha & texts & Hc & Hok & Hr & Ht).
    pose proof (openAppend_ok _ _ _ Hopen) as [Hcontent _].
    unfold openAppend in Hopen.
    apply bind_ok in Hopen as (r & σ0 & Hext & Hopen).
    apply external_elapses in Hext as (-> & (Ha0 & _) & Hc0 & _).
    destruct (failure (answers σ (length (calls σ)))) as [msg|] eqn:Hfail;
      unfold mret, M_ret in Hopen; [discriminate Hopen|].
    injection Hopen as Hσ1. subst σ1.
    simpl in Ha, Hc, Hok, Hr, Ht. rewrite Hc0, length_snoc in Hok, Hr, Ht.
    rewrite Hc0, <- app_assoc in Hc. rewrite Ha0 in Hok, Hr, Ht.
    exists texts. split; [exact Hc|]. split; [|split].
    + intros [|k] Hk; [rewrite Nat.add_0_r; exact Hfail|].
      replace (length (calls σ) + S k)%nat with (S (length (calls σ)) + k)%nat
        by lia.
      apply Hok. lia.
    + rewrite Hr. destruct texts as [|d ds].
      * simpl. rewrite Nat.add_0_r, Hfail. reflexivity.
      * f_equal. f_equal. simpl. lia.
    + rewrite Ht, Hcontent.
      replace (S (length (calls σ)) + length texts - 1)%nat
        with (length (calls σ) + length texts)%nat by lia.
      reflexivity.
Qed.

Lemma emission_stops_at_failure_witness :
  exists σ' texts,
    writeResultsToFile Sample.lib Sample.fresh Sample.tornWrite
      = Some (Some "write noc-watch.log: no space left on device"%string, σ') /\
    calls σ'
      = calls Sample.tornWrite
        ++ OpenFile "noc-watch.log" :: map (WriteFile "noc-watch.log") texts /\
    content "noc-watch.log" σ'
      = content "noc-watch.log" Sample.tornWrite
        +:+ gained (answers Sample.tornWrite
                      (length (calls Sample.tornWrite) + length texts))
              texts (Some "write noc-watch.log: no space left on device"%string) /\
    content "noc-watch.log" σ'
      = nl +:+ "=== WiFi Quality Test Results - 0 ===" +:+ nl
        +:+ "Total Tests: 0, Success: 0, Success Rate: 0.00%" +:+ nl
        +:+ "DHCP Success".
Proof.
  edestruct (emission_stops_at_failure Sample.lib Sample.fresh Sample.tornWrite)
    as (texts & Hcalls & _ & _ & Hcontent); [vm_compute; reflexivity|].
  eexists _, texts. refine (conj _ (conj Hcalls (conj Hcontent _))).
  - vm_compute. reflexivity.
  - vm_compute. reflexivity.
Defined.

(** ** A whole run *)

(** What a turn of the loop is made of. *)
Lemma onTick_inv lib t w σ w' σ' :
  onTick lib t w σ = Some (w', σ') ->
  match t with
  | dhcpTicker =>
      exists test σ1,
        runTest lib w σ = Some (test, σ1) /\
        updateUI lib (recordDHCP test w) σ1 = Some (tt, σ') /\
        w' = recordDHCP test w
  | pingTicker =>
      exists test σ1,
        runConnectivityTest lib w σ = Some (test, σ1) /\
        updateUI lib (recordPing test w) σ1 = Some (tt, σ') /\
        w' = recordPing test w
  | uiTicker =>
      w' = w /\
      if headless w then σ' = σ else updateUI lib w σ = Some (tt, σ')
  | fileTicker =>
      w' = w /\
      exists result σ1,
        writeResultsToFile lib w σ = Some (result, σ1) /\
        σ' = match result with
             | Some e => print ("Error writing to file: " +:+ e +:+ nl) σ1
             | None => σ1
             end
  end.
Proof.
  destruct t; intros Hstep.
  - apply onTick_dhcp_inv, Hstep.
  - apply onTick_ping_inv, Hstep.
  - unfold onTick in Hstep. destruct (headless w).
    + unfold_monad. simplify_eq. auto.
    + apply bind_ok in Hstep as ([] & σ1 & Hui & Hret).
      unfold_monad. simplify_eq. auto.
  - unfold onTick in Hstep.
    apply bind_ok in Hstep as (result & σ1 & Hwrite & Hstep).
    apply bind_ok in Hstep as ([] & σ2 & Hprint & Hret).
    unfold mret, M_ret in Hret. simplify_eq. split; [reflexivity|].
    exists result, σ1. split; [exact Hwrite|].
    destruct result; unfold Printf, mret, M_ret in Hprint; simplify_eq;
      reflexivity.
Qed.

Lemma onTick_settings lib t w σ w' σ' :
  onTick lib t w σ = Some (w', σ') -> settings w' = settings w.
Proof.
  intros Hstep. apply onTick_inv in Hstep. destruct t.
  - destruct Hstep as (test & σ1 & _ & _ & ->). reflexivity.
  - destruct Hstep as (test & σ1 & _ & _ & ->). reflexivity.
  - destruct Hstep as [-> _]. reflexivity.
  - destruct Hstep as [-> _]. reflexivity.
Qed.

Lemma settings_logFile w w' : settings w' = settings w -> logFile w' = logFile w.
Proof. unfold settings. intros H. congruence. Qed.

Lemma settings_headless w w' :
  settings w' = settings w -> headless w' = headless w.
Proof. unfold settings. intros H. congruence. Qed.

Lemma print_runs path e σ :
  runs path σ (print ("Error writing to file: " +:+ e +:+ nl) σ).
Proof.
  split; [apply elapses_same; reflexivity|].
  split; [apply appends_same; reflexivity|]. split.
  - eexists. split; [reflexivity|]. repeat constructor. exists e. reflexivity.
  - exists []. simpl. rewrite app_nil_r. reflexivity.
Qed.

Lemma onTick_runs lib t w σ w' σ' :
  onTick lib t w σ = Some (w', σ') -> runs (logFile w) σ σ'.
Proof.
  intros Hstep. apply onTick_inv in Hstep. destruct t.
  - destruct Hstep as (test & σ1 & Hrun & Hui & _).
    etransitivity;
      [apply emits_runs, probes_emits; eapply probes_runTest, Hrun|].
    eapply updateUI_runs, Hui.
  - destruct Hstep as (test & σ1 & Hrun & Hui & _).
    etransitivity;
      [apply emits_runs, probes_emits; eapply probes_runConnectivityTest, Hrun|].
    eapply updateUI_runs, Hui.
  - destruct Hstep as [_ Hui]. destruct (headless w); [subst; reflexivity|].
    eapply updateUI_runs, Hui.
  - destruct Hstep as (_ & result & σ1 & Hwrite & ->).
    apply emits_writeResultsToFile in Hwrite. apply emits_runs in Hwrite.
    destruct result as [e|]; [|exact Hwrite].
    etransitivity; [exact Hwrite | apply print_runs].
Qed.

Lemma loop_runs lib fired : forall w σ w' σ',
  loop lib fired w σ = Some (w', σ') ->
  runs (logFile w) σ σ' /\ settings w' = settings w.
Proof.
  induction fired as [|t rest IH]; intros w σ w' σ' Hloop.
  - simpl in Hloop. unfold_monad. simplify_eq. split; reflexivity.
  - rewrite loop_cons in Hloop.
    destruct (onTick lib t w σ) as [[w1 σ1]|] eqn:Hstep; [|discriminate].
    pose proof (onTick_settings _ _ _ _ _ _ Hstep) as Hs1.
    apply onTick_runs in Hstep.
    apply IH in Hloop as [Hruns Hs2].
    rewrite (settings_logFile _ _ Hs1) in Hruns.
    split; [etransitivity; eassumption | congruence].
Qed.

(** X9: over any run the settings of the monitor -- interface, log file,
    mode, views -- stay what they were; the only file that changes is the
    log file, which only grows at its end and is never removed; and the
    environment is read, not changed. *)
Theorem run_touches_only_the_log lib fired w σ w' σ' :
  loop lib fired w σ = Some (w', σ') ->
  settings w' = settings w /\
  (forall other, other <> logFile w -> files σ' !! other = files σ !! other) /\
  (exists suffix, content (logFile w) σ' = content (logFile w) σ +:+ suffix) /\
  (is_Some (files σ !! logFile w) -> is_Some (files σ' !! logFile w)) /\
  environ σ' = environ σ.
Proof.
  intros Hloop.
  apply loop_runs in Hloop
    as [((_ & Henv & _) & (Hothers & Hkept & Hsuffix) & _) Hsettings].
  auto.
Qed.

Lemma run_touches_only_the_log_witness :
  exists w' σ',
    loop Sample.lib [fileTicker; dhcpTicker; fileTicker] Sample.fresh Sample.calm
      = Some (w', σ') /\
    logFile w' = "noc-watch.log"%string /\
    dom (files σ') = {["noc-watch.log"%string]}.
Proof.
  do 2 eexists. split; [vm_compute; reflexivity|].
  edestruct (run_touches_only_the_log Sample.lib
               [fileTicker; dhcpTicker; fileTicker] Sample.fresh Sample.calm)
    as (Hsettings & _); [vm_compute; reflexivity|].
  split; [exact (settings_logFile _ _ Hsettings)|].
  vm_compute. reflexivity.
Defined.

Lemma onTick_output lib t w σ w' σ' :
  onTick lib t w σ = Some (w', σ') ->
  (exists lines,
     stdout σ' = stdout σ ++ lines /\ Forall errorLine lines /\
     (length lines <= fires fileTicker [t])%nat) /\
  (exists screens,
     uiQueue σ' = uiQueue σ ++ screens /\
     length screens
       = if headless w then 0%nat
         else (fires dhcpTicker [t] + fires pingTicker [t] + fires uiTicker [t])%nat).
Proof.
  intros Hstep. apply onTick_inv in Hstep. destruct t.
  - destruct Hstep as (test & σ1 & Hrun & Hui & _).
    apply probes_runTest in Hrun as (_ & _ & Ho & Hq).
    apply updateUI_effect in Hui as [[Hh ->] | (Hh & screen & ->)];
      simpl in Hh; rewrite Hh; simpl; rewrite Ho, Hq.
    + split; [exists [] | exists []]; rewrite app_nil_r; auto.
    + split; [exists []; rewrite app_nil_r; auto | exists [screen]; auto].
  - destruct Hstep as (test & σ1 & Hrun & Hui & _).
    apply probes_runConnectivityTest in Hrun as (_ & _ & Ho & Hq).
    apply updateUI_effect in Hui as [[Hh ->] | (Hh & screen & ->)];
      simpl in Hh; rewrite Hh; simpl; rewrite Ho, Hq.
    + split; [exists [] | exists []]; rewrite app_nil_r; auto.
    + split; [exists []; rewrite app_nil_r; auto | exists [screen]; auto].
  - destruct Hstep as [_ Hui]. destruct (headless w) eqn:Hh.
    + subst. split; [exists [] | exists []]; rewrite app_nil_r; auto.
    + apply updateUI_effect in Hui as [[Hh' _] | (_ & screen & ->)];
        [congruence|]. simpl.
      split; [exists []; rewrite app_nil_r; auto | exists [screen]; auto].
  - destruct Hstep as (_ & result & σ1 & Hwrite & ->).
    apply emits_writeResultsToFile in Hwrite as (_ & _ & Ho & Hq).
    destruct result as [e|]; simpl; rewrite Ho, Hq.
    + split.
      * eexists. split; [reflexivity|]. split; [|vm_compute; lia].
        repeat constructor. exists e. reflexivity.
      * exists []. rewrite app_nil_r. destruct (headless w); auto.
    + split.
      * exists []. rewrite app_nil_r. split; [reflexivity|].
        split; [constructor | vm_compute; lia].
      * exists []. rewrite app_nil_r. destruct (headless w); auto.
Qed.

Lemma fires_cons t u rest : fires t (u :: rest) = (fires t [u] + fires t rest)%nat.
Proof. unfold fires. simpl. destruct t, u; reflexivity. Qed.

(** X10: over any run, what the program prints on standard output is a
    list of lines [Error writing to file: ...], at most one for each time
    the file ticker fired: a run in which no emission fails prints
    nothing, and a test prints nothing, whatever fails in it. *)
Theorem run_prints_only_emission_errors lib fired : forall w σ w' σ',
  loop lib fired w σ = Some (w', σ') ->
  exists lines,
    stdout σ' = stdout σ ++ lines /\ Forall errorLine lines /\
    (length lines <= fires fileTicker fired)%nat.
Proof.
  induction fired as [|t rest IH]; intros w σ w' σ' Hloop.
  - simpl in Hloop. unfold_monad. simplify_eq.
    exists []. rewrite app_nil_r. repeat split; [constructor | simpl; lia].
  - rewrite loop_cons in Hloop.
    destruct (onTick lib t w σ) as [[w1 σ1]|] eqn:Hstep; [|discriminate].
    apply onTick_output in Hstep as [(l1 & Ho1 & Hl1 & Hn1) _].
    apply IH in Hloop as (l2 & Ho2 & Hl2 & Hn2).
    exists (l1 ++ l2). rewrite Ho2, Ho1, app_assoc.
    split; [reflexivity|]. split; [apply Forall_app; auto|].
    rewrite length_app, fires_cons. lia.
Qed.

Lemma run_prints_only_emission_errors_witness :
  exists w' σ',
    loop Sample.lib [fileTicker; dhcpTicker; pingTicker] Sample.fresh
      Sample.readOnly = Some (w', σ') /\
    exists lines,
      stdout σ' = stdout Sample.readOnly ++ lines /\ Forall errorLine lines /\
      (length lines <= 1)%nat.
Proof.
  do 2 eexists. split; [vm_compute; reflexivity|].
  eapply (run_prints_only_emission_errors Sample.lib
            [fileTicker; dhcpTicker; pingTicker] Sample.fresh Sample.readOnly).
  vm_compute. reflexivity.
Defined.

(** X11: in headless mode a run never queues an update of the dashboard; in
    TUI mode it queues exactly one for each time the DHCP, ping or UI
    ticker fired, and none for the file ticker: every test and every tick
    of the clock display is followed by one redraw. *)
Theorem run_queues_one_update_per_tick lib fired : forall w σ w' σ',
  loop lib fired w σ = Some (w', σ') ->
  exists screens,
    uiQueue σ' = uiQueue σ ++ screens /\
    length screens
      = if headless w then 0%nat
        else (fires dhcpTicker fired + fires pingTicker fired
              + fires uiTicker fired)%nat.
Proof.
  induction fired as [|t rest IH]; intros w σ w' σ' Hloop.
  - simpl in Hloop. unfold_monad. simplify_eq.
    exists []. rewrite app_nil_r. destruct (headless w'); auto.
  - rewrite loop_cons in Hloop.
    destruct (onTick lib t w σ) as [[w1 σ1]|] eqn:Hstep; [|discriminate].
    pose proof (settings_headless _ _ (onTick_settings _ _ _ _ _ _ Hstep)) as Hh.
    apply onTick_output in Hstep as [_ (q1 & Hq1 & Hn1)].
    apply IH in Hloop as (q2 & Hq2 & Hn2). rewrite Hh in Hn2.
    exists (q1 ++ q2). rewrite Hq2, Hq1, app_assoc.
    split; [reflexivity|].
    rewrite length_app, Hn1, Hn2, !(fires_cons _ t rest).
    destruct (headless w); lia.
Qed.

Lemma run_queues_one_update_per_tick_witness :
  exists w' σ',
    loop Sample.lib [dhcpTicker; fileTicker; uiTicker] Sample.interactive
      Sample.calm = Some (w', σ') /\
    length (uiQueue σ') = 2%nat.
Proof.
  do 2 eexists. split; [vm_compute; reflexivity|].
  edestruct (run_queues_one_update_per_tick Sample.lib
               [dhcpTicker; fileTicker; uiTicker] Sample.interactive Sample.calm)
    as (screens & Hq & Hn); [vm_compute; reflexivity|].
  rewrite Hq, length_app, Hn. reflexivity.
Defined.

(** ** The histories of a run *)

Lemma runTest_timestamp lib w σ test σ' :
  runTest lib w σ = Some (test, σ') -> Timestamp test = clock σ.
Proof.
  intros Hrun.
  destruct (runDHCPRenew_total w σ) as (d & ok & σ1 & H1 & _).
  destruct (checkIPv4Connectivity_total w σ1) as (v4 & σ2 & H2).
  destruct (checkIPv6Connectivity_total w σ2) as (v6 & σ3 & H3).
  destruct (measureLatency_total lib w σ3) as (lat & σ4 & H4).
  rewrite (runTest_steps _ _ _ _ _ _ _ _ _ _ _ _ H1 H2 H3 H4) in Hrun.
  simplify_eq. reflexivity.
Qed.

Lemma runConnectivityTest_timestamp lib w σ test σ' :
  runConnectivityTest lib w σ = Some (test, σ') ->
  Timestamp test = clock σ /\ DHCPRenewTime test = 0.
Proof.
  intros Hrun.
  destruct (checkIPv4Connectivity_total w σ) as (v4 & σ1 & H1).
  destruct (checkIPv6Connectivity_total w σ1) as (v6 & σ2 & H2).
  destruct (measureLatency_total lib w σ2) as (lat & σ3 & H3).
  rewrite (runConnectivityTest_steps _ _ _ _ _ _ _ _ _ H1 H2 H3) in Hrun.
  simplify_eq. split; reflexivity.
Qed.

(** What a turn of the loop records. *)
Lemma onTick_records lib t w σ w' σ' :
  onTick lib t w σ = Some (w', σ') ->
  match t with
  | dhcpTicker =>
      exists test, Timestamp test = clock σ /\ w' = recordDHCP test w
  | pingTicker =>
      exists test,
        Timestamp test = clock σ /\ DHCPRenewTime test = 0 /\
        w' = recordPing test w
  | uiTicker | fileTicker => w' = w
  end.
Proof.
  intros Hstep. apply onTick_inv in Hstep. destruct t.
  - destruct Hstep as (test & σ1 & Hrun & _ & ->).
    exists test. split; [eapply runTest_timestamp, Hrun | reflexivity].
  - destruct Hstep as (test & σ1 & Hrun & _ & ->).
    apply runConnectivityTest_timestamp in Hrun as [Hts Hd]. exists test. auto.
  - apply Hstep.
  - apply Hstep.
Qed.

Lemma runs_clock path σ σ' : runs path σ σ' -> steady σ -> clock σ <= clock σ'.
Proof. intros (He & _). apply elapses_clock, He. Qed.

Lemma runs_steady path σ σ' : runs path σ σ' -> steady σ -> steady σ'.
Proof. intros (He & _). apply elapses_steady, He. Qed.

Lemma chronological_snoc tests test :
  chronological tests ->
  Forall (fun t => Timestamp t <= Timestamp test) tests ->
  chronological (tests ++ [test]).
Proof.
  unfold chronological. induction 1 as [|a l Hl IH Ha]; intros Hall; simpl.
  - repeat constructor.
  - apply Forall_cons in Hall as [Hat Hall].
    constructor; [apply IH, Hall|].
    apply Forall_app. split; [exact Ha | repeat constructor; exact Hat].
Qed.

(** X12: a run only adds to the two histories, at their ends: one result
    to the lease history for each time the DHCP ticker fired, one to the
    connectivity history for each time the ping ticker fired, none for the
    other two tickers; no result is removed, replaced or reordered, and the
    results of the connectivity tests carry no renewal time. *)
Theorem run_records_one_result_per_test lib fired : forall w σ w' σ',
  loop lib fired w σ = Some (w', σ') ->
  exists leases pings,
    dhcpTests w' = dhcpTests w ++ leases /\
    length leases = fires dhcpTicker fired /\
    pingTests w' = pingTests w ++ pings /\
    length pings = fires pingTicker fired /\
    Forall (fun test => DHCPRenewTime test = 0) pings.
Proof.
  induction fired as [|t rest IH]; intros w σ w' σ' Hloop.
  - simpl in Hloop. unfold_monad. simplify_eq.
    exists [], []. rewrite !app_nil_r. repeat split; constructor.
  - rewrite loop_cons in Hloop.
    destruct (onTick lib t w σ) as [[w1 σ1]|] eqn:Hstep; [|discriminate].
    apply onTick_records in Hstep.
    apply IH in Hloop as (ls & ps & Hd & Hnd & Hp & Hnp & Hz).
    rewrite !(fires_cons _ t rest).
    destruct t.
    + destruct Hstep as (test & _ & ->). simpl in Hd, Hp.
      exists (test :: ls), ps. rewrite Hd, Hp, <- app_assoc. simpl.
      repeat split; auto.
    + destruct Hstep as (test & _ & Hzero & ->). simpl in Hd, Hp.
      exists ls, (test :: ps). rewrite Hd, Hp, <- app_assoc. simpl.
      repeat split; auto.
    + subst w1. exists ls, ps. repeat split; auto.
    + subst w1. exists ls, ps. repeat split; auto.
Qed.

Lemma run_records_one_result_per_test_witness :
  exists w' σ',
    loop Sample.lib [dhcpTicker; pingTicker; fileTicker; pingTicker]
      Sample.fresh Sample.calm = Some (w', σ') /\
    exists leases pings,
      dhcpTests w' = dhcpTests Sample.fresh ++ leases /\
      length leases = 1%nat /\
      pingTests w' = pingTests Sample.fresh ++ pings /\
      length pings = 2%nat /\
      Forall (fun test => DHCPRenewTime test = 0) pings.
Proof.
  do 2 eexists. split; [vm_compute; reflexivity|].
  eapply (run_records_one_result_per_test Sample.lib
            [dhcpTicker; pingTicker; fileTicker; pingTicker]
            Sample.fresh Sample.calm).
  vm_compute. reflexivity.
Defined.

Lemma onTick_chronological lib t w σ w' σ' :
  steady σ ->
  chronological (dhcpTests w) -> chronological (pingTests w) ->
  Forall (fun test => Timestamp test <= clock σ) (dhcpTests w ++ pingTests w) ->
  onTick lib t w σ = Some (w', σ') ->
  steady σ' /\
  chronological (dhcpTests w') /\ chronological (pingTests w') /\
  Forall (fun test => Timestamp test <= clock σ') (dhcpTests w' ++ pingTests w') /\
  clock σ <= clock σ'.
Proof.
  intros Hsteady Hd Hp Hpast Hstep.
  pose proof (onTick_runs _ _ _ _ _ _ Hstep) as Hruns.
  pose proof (runs_clock _ _ _ Hruns Hsteady) as Hclock.
  pose proof (runs_steady _ _ _ Hruns Hsteady) as Hsteady'.
  assert (Hlater : forall l,
             Forall (fun test => Timestamp test <= clock σ) l ->
             Forall (fun test => Timestamp test <= clock σ') l).
  { intros l Hl. eapply Forall_impl; [exact Hl|]. intros test Ht. simpl in Ht. lia. }
  apply Forall_app in Hpast as [Hpd Hpp].
  apply onTick_records in Hstep. destruct t.
  - destruct Hstep as (test & Hts & ->). simpl.
    split; [exact Hsteady'|]. split.
    { apply chronological_snoc; [exact Hd|]. rewrite Hts. exact Hpd. }
    split; [exact Hp|]. split; [|exact Hclock].
    rewrite !Forall_app. split; [split|]; auto.
    repeat constructor. lia.
  - destruct Hstep as (test & Hts & _ & ->). simpl.
    split; [exact Hsteady'|]. split; [exact Hd|]. split.
    { apply chronological_snoc; [exact Hp|]. rewrite Hts. exact Hpp. }
    split; [|exact Hclock].
    rewrite !Forall_app. split; [|split]; auto.
    repeat constructor. lia.
  - subst w'. rewrite Forall_app. auto 10.
  - subst w'. rewrite Forall_app. auto 10.
Qed.

(** X13: while no external command takes a negative time, the timestamps
    of each history stay in non-decreasing order over a run and none lies
    after the clock: a history that is chronological and of the past at
    the start of a run is so at its end, and the clock never goes back. *)
Theorem run_keeps_histories_chronological lib fired : forall w σ w' σ',
  steady σ ->
  chronological (dhcpTests w) -> chronological (pingTests w) ->
  Forall (fun test => Timestamp test <= clock σ) (dhcpTests w ++ pingTests w) ->
  loop lib fired w σ = Some (w', σ') ->
  chronological (dhcpTests w') /\ chronological (pingTests w') /\
  Forall (fun test => Timestamp test <= clock σ') (dhcpTests w' ++ pingTests w') /\
  clock σ <= clock σ'.
Proof.
  induction fired as [|t rest IH]; intros w σ w' σ' Hsteady Hd Hp Hpast Hloop.
  - simpl in Hloop. unfold_monad. simplify_eq. repeat split; auto. lia.
  - rewrite loop_cons in Hloop.
    destruct (onTick lib t w σ) as [[w1 σ1]|] eqn:Hstep; [|discriminate].
    apply (onTick_chronological _ _ _ _ _ _ Hsteady Hd Hp Hpast) in Hstep
      as (Hsteady1 & Hd1 & Hp1 & Hpast1 & Hclock1).
    destruct (IH _ _ _ _ Hsteady1 Hd1 Hp1 Hpast1 Hloop)
      as (Hd2 & Hp2 & Hpast2 & Hclock2).
    repeat split; auto. lia.
Qed.

Lemma run_keeps_histories_chronological_witness :
  exists w' σ',
    loop Sample.lib [dhcpTicker; pingTicker; dhcpTicker] Sample.fresh
      Sample.calm = Some (w', σ') /\
    chronological (dhcpTests w') /\ chronological (pingTests w') /\
    Forall (fun test => Timestamp test <= clock σ') (dhcpTests w' ++ pingTests w') /\
    clock Sample.calm <= clock σ'.
Proof.
  do 2 eexists. split; [vm_compute; reflexivity|].
  eapply (run_keeps_histories_chronological Sample.lib
            [dhcpTicker; pingTicker; dhcpTicker] Sample.fresh Sample.calm).
  - intros n. unfold Sample.calm, Sample.world. simpl.
    destruct n; vm_compute; discriminate.
  - constructor.
  - constructor.
  - constructor.
  - vm_compute. reflexivity.
Defined.

(** ** The figures of the dashboard *)

Lemma successes_failures tests :
  (successes tests + failures tests = length tests)%nat.
Proof.
  unfold successes, failures. induction tests as [|test rest IH]; [reflexivity|].
  simpl. destruct (Success test); simpl; lia.
Qed.

(** The loop that counts the successes of a class, from any count. *)
Lemma countSuccesses_from tests : forall n,
  0 <= n -> n + len tests < 2 ^ 63 ->
  fold_left (fun n test => if Success test then incr n else n) tests n
    = n + Z.of_nat (successes tests).
Proof.
  unfold successes, len.
  induction tests as [|test rest IH]; intros n Hn Hsmall; simpl in *; [lia|].
  pose proof (List.filter_length_le Success rest) as Hle.
  destruct (Success test); simpl.
  - unfold incr. rewrite wrap64_small by lia. rewrite IH by lia. lia.
  - apply IH; lia.
Qed.

Lemma countSuccesses_exact tests :
  len tests < 2 ^ 63 -> countSuccesses tests = Z.of_nat (successes tests).
Proof.
  intros Hsmall. unfold countSuccesses.
  rewrite countSuccesses_from by lia. lia.
Qed.

(** X14: in a monitor whose counters agree with its histories (as they do
    at every point of a run) and that holds fewer than 2^63 results, the
    count of successes never exceeds the total, the figure [Failure] of
    the dashboard, [totalCount - successCount], is the number of failed
    results, and [successCount] is the sum of the two counts that the
    dashboard and the log recompute from the histories for the rates of
    the classes. *)
Theorem counters_agree_with_recount w :
  consistent w -> Z.of_nat (recorded w) < 2 ^ 63 ->
  0 <= successCount w <= totalCount w /\
  wrap64 (totalCount w - successCount w)
    = Z.of_nat (failures (dhcpTests w) + failures (pingTests w)) /\
  successCount w
    = countSuccesses (dhcpTests w) + countSuccesses (pingTests w).
Proof.
  intros Hcons Hsmall.
  destruct (consistent_exact w Hcons Hsmall) as [Htotal Hsucc].
  pose proof (successes_failures (dhcpTests w)) as Hd.
  pose proof (successes_failures (pingTests w)) as Hp.
  unfold recorded, len in *.
  split; [lia|]. split.
  - rewrite Htotal, Hsucc. rewrite wrap64_small by lia. lia.
  - rewrite !countSuccesses_exact by (unfold len; lia). lia.
Qed.

Lemma counters_agree_with_recount_witness :
  wrap64 (totalCount Sample.seen - successCount Sample.seen) = 0 /\
  successCount Sample.seen
    = countSuccesses (dhcpTests Sample.seen)
      + countSuccesses (pingTests Sample.seen).
Proof.
  destruct (counters_agree_with_recount Sample.seen) as (_ & Hfail & Hsum).
  - split; vm_compute; reflexivity.
  - vm_compute. reflexivity.
  - split; [exact Hfail | exact Hsum].
Defined.

(** X15: while only one class has results, the overall rate is the rate of
    that class: in a monitor whose counters agree with its histories, with
    fewer than 2^63 results and no connectivity result, the overall rate is
    the rate computed for the lease class, and symmetrically. *)
Theorem single_class_rate w :
  consistent w -> Z.of_nat (recorded w) < 2 ^ 63 ->
  (pingTests w = [] -> overallSuccessRate w = classSuccessRate (dhcpTests w)) /\
  (dhcpTests w = [] -> overallSuccessRate w = classSuccessRate (pingTests w)).
Proof.
  intros Hcons Hsmall.
  destruct (consistent_exact w Hcons Hsmall) as [Htotal Hsucc].
  unfold recorded in Hsmall.
  split; intros Hempty; rewrite Hempty in Htotal, Hsucc, Hsmall;
    change (successes []) with 0%nat in Hsucc;
    unfold len in Htotal; simpl in Htotal, Hsmall;
    rewrite ?Z.add_0_r, ?Nat.add_0_r in *;
    unfold overallSuccessRate, classSuccessRate; rewrite Htotal, Hsucc;
    rewrite countSuccesses_exact by (unfold len; lia); reflexivity.
Qed.

Lemma single_class_rate_witness :
  overallSuccessRate Sample.tenRecorded
    = classSuccessRate (dhcpTests Sample.tenRecorded).
Proof.
  apply (single_class_rate Sample.tenRecorded).
  - split; vm_compute; reflexivity.
  - vm_compute. reflexivity.
  - reflexivity.
Defined.

(** ** The rows of the chart *)

Lemma chartLoop_rows row tests : forall i text,
  0 <= i <= 10 ->
  chartLoop row i tests text
    = text +:+ joined (imap (fun k test => row (i + Z.of_nat k) test)
                         (take (Z.to_nat (10 - i)) tests)).
Proof.
  induction tests as [|test rest IH]; intros i text Hi.
  - rewrite take_nil. simpl. symmetry. apply string_app_nil_r.
  - destruct (Z.eq_dec i 10) as [->|Hne].
    + rewrite chartLoop_done by lia. simpl. symmetry. apply string_app_nil_r.
    + replace (Z.to_nat (10 - i)) with (S (Z.to_nat (10 - (i + 1)))) by lia.
      simpl. destruct (Z.leb_spec 10 i); [lia|].
      rewrite IH by lia. rewrite string_app_assoc.
      unfold joined at 2. simpl. fold (joined
        (imap ((fun k test0 => row (i + Z.of_nat k) test0) ∘ S)
           (take (Z.to_nat (10 - (i + 1))) rest))).
      rewrite Z.add_0_r. do 3 f_equal.
      apply imap_ext. intros k test' _. simpl. f_equal. lia.
Qed.

(** X16: each chart of the dashboard is the text before it followed by one
    row for each of the first ten results of the history, in the order of
    the history and numbered from 1 (by a notice while the history is
    empty): never more than ten rows, and the text before is kept. *)
Theorem chart_lists_first_ten_in_order lib tests text :
  tests <> [] ->
  dhcpChart lib tests text = text +:+ joined (chartRows (dhcpChartRow lib) tests) /\
  pingChart lib tests text = text +:+ joined (chartRows (pingChartRow lib) tests) /\
  length (chartRows (dhcpChartRow lib) tests) = Nat.min 10 (length tests) /\
  length (chartRows (pingChartRow lib) tests) = Nat.min 10 (length tests).
Proof.
  intros Hne. unfold dhcpChart, pingChart, chartRows.
  destruct tests as [|test rest]; [congruence|].
  change (len (test :: rest) =? 0) with (Z.pos (Pos.of_succ_nat (length rest)) =? 0).
  simpl (_ =? 0).
  rewrite !(chartLoop_rows _ (test :: rest) 0 text) by lia.
  rewrite !length_imap, !length_take.
  repeat split; reflexivity.
Qed.

Lemma chart_lists_first_ten_in_order_witness :
  length (chartRows (dhcpChartRow Sample.lib) Sample.eleven) = 10%nat.
Proof.
  refine (eq_trans
            (proj1 (proj2 (proj2
               (chart_lists_first_ten_in_order Sample.lib Sample.eleven
                  EmptyString _)))) _).
  - discriminate.
  - reflexivity.
Defined.

(** ** The start of the monitoring *)

(** What the dashboard queues, in TUI mode. *)
Lemma updateUI_screen lib w σ u σ' :
  updateUI lib w σ = Some (u, σ') -> headless w = false ->
  exists stats text,
    renderLog lib w σ = Some (text, σ) /\
    σ' = enqueue {| statsText := stats; chartText := renderChart lib w;
                    logText := text |} σ.
Proof.
  unfold updateUI. intros H Hmode. rewrite Hmode in H.
  apply bind_ok in H as (rate & σ1 & H1 & H). apply neutral_liftO in H1 as ->.
  apply bind_ok in H as (dr & σ1 & H1 & H). apply neutral_liftO in H1 as ->.
  apply bind_ok in H as (pr & σ1 & H1 & H). apply neutral_liftO in H1 as ->.
  apply bind_ok in H as (now & σ1 & H1 & H). apply neutral_Now in H1 as ->.
  apply bind_ok in H as (text & σ1 & H1 & H).
  pose proof (renderLog_neutral _ _ _ _ _ H1) as ->.
  unfold QueueUpdateDraw in H. destruct (app w); [|discriminate].
  simplify_eq. eauto.
Qed.

(** X17: before its loop [startMonitoring] runs no command, writes no file,
    prints nothing and lets no time pass.  In headless mode it does nothing
    at all; in TUI mode it queues one redraw of the dashboard, and while no
    test has run the chart and the latest-results texts of that redraw are
    the ones that [main] puts into the views at the start, followed by a
    line break.  From there on it is the loop. *)
Theorem startMonitoring_first_redraw lib w σ :
  uiReady w = true ->
  exists σ0,
    (forall fired, startMonitoring lib fired w σ = loop lib fired w σ0) /\
    clock σ0 = clock σ /\ calls σ0 = calls σ /\ files σ0 = files σ /\
    stdout σ0 = stdout σ /\ environ σ0 = environ σ /\
    answers σ0 = answers σ /\
    if headless w then σ0 = σ
    else
      exists redraw,
        uiQueue σ0 = uiQueue σ ++ [redraw] /\
        (dhcpTests w = [] -> pingTests w = [] ->
         forall currentTime,
           chartText redraw = chartText (initialScreen currentTime) +:+ nl /\
           logText redraw = logText (initialScreen currentTime) +:+ nl).
Proof.
  intros Hready. unfold startMonitoring.
  destruct (headless w) eqn:Hmode.
  - exists σ. repeat split; reflexivity.
  - destruct (returns_updateUI lib w σ Hready) as ([] & σ0 & Hui).
    exists σ0. split.
    { intros fired. unfold_monad. rewrite Hui. reflexivity. }
    apply updateUI_screen in Hui as (stats & text & Hlog & ->); [|exact Hmode].
    do 6 (split; [reflexivity|]).
    eexists. split; [reflexivity|].
    intros Hd Hp currentTime. simpl. split.
    + unfold renderChart. rewrite Hd, Hp. vm_compute. reflexivity.
    + unfold renderLog in Hlog. rewrite Hd, Hp in Hlog.
      vm_compute in Hlog. injection Hlog as <-. vm_compute. reflexivity.
Qed.

Lemma startMonitoring_first_redraw_witness :
  exists σ0 redraw,
    startMonitoring Sample.lib [] Sample.interactive Sample.calm
      = Some (Sample.interactive, σ0) /\
    uiQueue σ0 = uiQueue Sample.calm ++ [redraw] /\
    logText redraw
      = logText (initialScreen EmptyString) +:+ nl.
Proof.
  destruct (startMonitoring_first_redraw Sample.lib Sample.interactive
              Sample.calm eq_refl)
    as (σ0 & Hrun & _ & _ & _ & _ & _ & _ & redraw & Hqueue & Htexts).
  exists σ0, redraw. split; [exact (Hrun [])|]. split; [exact Hqueue|].
  exact (proj2 (Htexts eq_refl eq_refl EmptyString)).
Defined.

(** ** The verdicts of the recorded results *)

Lemma runTest_verdict lib w σ test σ' :
  runTest lib w σ = Some (test, σ') -> leaseVerdict test.
Proof.
  intros Hrun.
  destruct (runDHCPRenew_total w σ) as (d & ok & σ1 & H1 & _).
  destruct (checkIPv4Connectivity_total w σ1) as (v4 & σ2 & H2).
  destruct (checkIPv6Connectivity_total w σ2) as (v6 & σ3 & H3).
  destruct (measureLatency_total lib w σ3) as (lat & σ4 & H4).
  rewrite (runTest_steps _ _ _ _ _ _ _ _ _ _ _ _ H1 H2 H3 H4) in Hrun.
  simplify_eq. unfold leaseVerdict. simpl. intros Hs.
  apply andb_prop in Hs as [Hs Hlat]. apply andb_prop in Hs as [_ Hv4].
  apply Z.ltb_lt in Hlat. auto.
Qed.

Lemma runConnectivityTest_verdict lib w σ test σ' :
  runConnectivityTest lib w σ = Some (test, σ') -> pingVerdict test.
Proof.
  intros Hrun.
  destruct (checkIPv4Connectivity_total w σ) as (v4 & σ1 & H1).
  destruct (checkIPv6Connectivity_total w σ1) as (v6 & σ2 & H2).
  destruct (measureLatency_total lib w σ2) as (lat & σ3 & H3).
  rewrite (runConnectivityTest_steps _ _ _ _ _ _ _ _ _ H1 H2 H3) in Hrun.
  simplify_eq. split; reflexivity.
Qed.

Lemma onTick_verdicts lib t w σ w' σ' :
  Forall leaseVerdict (dhcpTests w) -> Forall pingVerdict (pingTests w) ->
  onTick lib t w σ = Some (w', σ') ->
  Forall leaseVerdict (dhcpTests w') /\ Forall pingVerdict (pingTests w').
Proof.
  intros Hd Hp Hstep. apply onTick_inv in Hstep. destruct t.
  - destruct Hstep as (test & σ1 & Hrun & _ & ->). simpl.
    split; [|exact Hp]. apply Forall_app. split; [exact Hd|].
    constructor; [|constructor]. eapply runTest_verdict, Hrun.
  - destruct Hstep as (test & σ1 & Hrun & _ & ->). simpl.
    split; [exact Hd|]. apply Forall_app. split; [exact Hp|].
    constructor; [|constructor]. eapply runConnectivityTest_verdict, Hrun.
  - destruct Hstep as [-> _]. auto.
  - destruct Hstep as [-> _]. auto.
Qed.

Lemma loop_verdicts lib fired : forall w σ w' σ',
  Forall leaseVerdict (dhcpTests w) -> Forall pingVerdict (pingTests w) ->
  loop lib fired w σ = Some (w', σ') ->
  Forall leaseVerdict (dhcpTests w') /\ Forall pingVerdict (pingTests w').
Proof.
  induction fired as [|t rest IH]; intros w σ w' σ' Hd Hp Hloop.
  - simpl in Hloop. unfold_monad. simplify_eq. auto.
  - rewrite loop_cons in Hloop.
    destruct (onTick lib t w σ) as [[w1 σ1]|] eqn:Hstep; [|discriminate].
    destruct (onTick_verdicts _ _ _ _ _ _ Hd Hp Hstep) as [Hd1 Hp1].
    eapply IH; eassumption.
Qed.

(** X18: every result that a run of the program has recorded obeys the
    rule of its class, whatever the world answered: a lease result that
    counts as a success has IPv4 reachable and a positive latency; a
    connectivity result is a success exactly when IPv4 is reachable and its
    latency is positive, and carries no renewal time. *)
Theorem recorded_verdicts_follow_the_rules lib fired σ w σ' :
  main lib fired σ = Some (w, σ') ->
  Forall leaseVerdict (dhcpTests w) /\ Forall pingVerdict (pingTests w).
Proof.
  destruct (main_start lib σ) as (w0 & σ0 & Hmain & _ & Hd & Hp & _).
  rewrite Hmain. apply loop_verdicts; [rewrite Hd | rewrite Hp]; constructor.
Qed.

Lemma recorded_verdicts_follow_the_rules_witness :
  exists w σ',
    main Sample.lib [dhcpTicker; pingTicker; pingTicker] Sample.renewFails
      = Some (w, σ') /\
    Forall leaseVerdict (dhcpTests w) /\ Forall pingVerdict (pingTests w).
Proof.
  do 2 eexists. split; [vm_compute; reflexivity|].
  eapply (recorded_verdicts_follow_the_rules Sample.lib
            [dhcpTicker; pingTicker; pingTicker] Sample.renewFails).
  vm_compute. reflexivity.
Defined.

(** ** The panel of the latest results *)

Lemma last_Some_index {A} (s : list A) x :
  last s = Some x ->
  (0 <? len s) = true /\ forall σ, index s (len s - 1) σ = Some (x, σ).
Proof.
  intros Hlast.
  assert (Hpos : (0 <? len s) = true).
  { destruct s; [discriminate|]. reflexivity. }
  split; [exact Hpos|]. intros σ.
  destruct (index_last s σ Hpos) as (y & Hy & Hlast'). congruence.
Qed.

Lemma last_None_len {A} (s : list A) : last s = None -> (0 <? len s) = false.
Proof. intros H. apply last_None in H. subst s. reflexivity. Qed.

(** X19: the panel of the latest results never fails and reads each
    history only at its last entry: two monitors whose histories end with
    the same results get the same text, whatever else they hold, whatever
    the time, and the world is left as it is. *)
Theorem latest_panel_reads_last_entries lib w1 w2 σ1 σ2 :
  last (dhcpTests w1) = last (dhcpTests w2) ->
  last (pingTests w1) = last (pingTests w2) ->
  exists text,
    renderLog lib w1 σ1 = Some (text, σ1) /\ renderLog lib w2 σ2 = Some (text, σ2).
Proof.
  intros Hd Hp. unfold renderLog.
  destruct (last (dhcpTests w2)) as [x|] eqn:Hd2;
    destruct (last (pingTests w2)) as [y|] eqn:Hp2;
    repeat match goal with
      | H : last ?s = Some _ |- _ =>
          apply last_Some_index in H as [? ?]
      | H : last ?s = None |- _ => apply last_None_len in H
      end;
    repeat match goal with H : (0 <? _) = _ |- _ => rewrite H; clear H end;
    unfold_monad;
    repeat match goal with
      | H : forall σ, index _ _ σ = _ |- _ => rewrite !H; clear H
      end;
    eexists; split; reflexivity.
Qed.

Lemma latest_panel_reads_last_entries_witness :
  exists text,
    renderLog Sample.lib Sample.seen Sample.calm = Some (text, Sample.calm) /\
    renderLog Sample.lib
      (recordPing Sample.reachable (recordDHCP (Sample.lease 1) Sample.tenRecorded))
      Sample.renewFails = Some (text, Sample.renewFails).
Proof.
  apply (latest_panel_reads_last_entries Sample.lib Sample.seen
           (recordPing Sample.reachable
              (recordDHCP (Sample.lease 1) Sample.tenRecorded))
           Sample.calm Sample.renewFails); reflexivity.
Defined.

(** ** The commands of a run *)

(** An emission makes no other call than the opening of the log file and
    the writes to it. *)
Lemma writeResultsToFile_calls lib w σ result σ' :
  writeResultsToFile lib w σ = Some (result, σ') ->
  exists texts,
    calls σ'
      = calls σ ++ OpenFile (logFile w) :: map (WriteFile (logFile w)) texts.
Proof.
  intros Hwrite. unfold writeResultsToFile in Hwrite.
  apply orReturn_inv in Hwrite as [(e & Hopen & ->) | (σ1 & Hopen & Hrest)];
    unfold openAppend in Hopen;
    apply bind_ok in Hopen as (r & σ0 & Hext & Hopen);
    apply external_elapses in Hext as (-> & _ & Hc & _);
    destruct (failure (answers σ (length (calls σ)))) as [msg|] eqn:Hfail;
    unfold mret, M_ret in Hopen; simplify_eq.
  - exists []. exact Hc.
  - apply (writing_block lib w) in Hrest as (_ & texts & Hc' & _).
    exists texts. simpl in Hc'. rewrite Hc', Hc, <- app_assoc. reflexivity.
Qed.

Lemma newCalls_same σ σ' : calls σ' = calls σ -> newCalls σ σ' = [].
Proof. unfold newCalls. intros ->. apply drop_all. Qed.

Lemma newCalls_app σ cs σ' : calls σ' = calls σ ++ cs -> newCalls σ σ' = cs.
Proof. unfold newCalls. intros ->. apply drop_app_length. Qed.

Lemma newCalls_trans σ σ1 σ2 cs1 cs2 :
  calls σ1 = calls σ ++ cs1 -> calls σ2 = calls σ1 ++ cs2 ->
  newCalls σ σ2 = newCalls σ σ1 ++ newCalls σ1 σ2.
Proof.
  intros H1 H2.
  rewrite (newCalls_app σ cs1 σ1 H1), (newCalls_app σ1 cs2 σ2 H2).
  apply newCalls_app. rewrite H2, H1, app_assoc. reflexivity.
Qed.

Lemma runs_calls path σ σ' : runs path σ σ' -> exists cs, calls σ' = calls σ ++ cs.
Proof. intros ((_ & _ & cs & _ & _ & Hc & _) & _). eauto. Qed.

Lemma writes_no_renewal path texts :
  List.filter isRenew (map (WriteFile path) texts) = [].
Proof. induction texts as [|d ds IH]; [reflexivity | exact IH]. Qed.

(** The one turn of the loop that asks for a new lease is the lease test. *)
Lemma onTick_renewals lib t w σ w' σ' :
  onTick lib t w σ = Some (w', σ') ->
  length (List.filter isRenew (newCalls σ σ')) = fires dhcpTicker [t].
Proof.
  intros Hstep. apply onTick_inv in Hstep. destruct t.
  - destruct Hstep as (test & σ1 & Hrun & Hui & _).
    apply updateUI_calls in Hui. apply runTest_calls in Hrun.
    unfold newCalls in *. rewrite Hui. exact Hrun.
  - destruct Hstep as (test & σ1 & Hrun & Hui & _).
    apply updateUI_calls in Hui.
    erewrite runConnectivityTest_steps in Hrun;
      [| apply checkIPv4Connectivity_eq | apply checkIPv6Connectivity_eq
       | apply measureLatency_eq ].
    simplify_eq. unfold newCalls. rewrite Hui. simpl. rewrite <- !app_assoc.
    rewrite drop_app_length. reflexivity.
  - destruct Hstep as [_ Hui]. destruct (headless w).
    + subst σ'. rewrite newCalls_same; reflexivity.
    + apply updateUI_calls in Hui. rewrite newCalls_same; [reflexivity | exact Hui].
  - destruct Hstep as (_ & result & σ1 & Hwrite & ->).
    apply writeResultsToFile_calls in Hwrite as (texts & Hc).
    rewrite (newCalls_app σ (OpenFile (logFile w) :: map (WriteFile (logFile w)) texts)).
    + simpl. rewrite writes_no_renewal. reflexivity.
    + destruct result; exact Hc.
Qed.

(** X20: a run asks for a new lease ([sudo dhclient <interface>]) exactly
    once for each time the DHCP ticker fired, whatever the commands answer:
    a failed renewal is not retried, and the connectivity tests, the
    dashboard and the log never touch the lease. *)
Theorem run_renews_once_per_lease_test lib fired : forall w σ w' σ',
  loop lib fired w σ = Some (w', σ') ->
  length (List.filter isRenew (newCalls σ σ')) = fires dhcpTicker fired.
Proof.
  induction fired as [|t rest IH]; intros w σ w' σ' Hloop.
  - simpl in Hloop. unfold_monad. simplify_eq.
    rewrite newCalls_same; reflexivity.
  - rewrite loop_cons in Hloop.
    destruct (onTick lib t w σ) as [[w1 σ1]|] eqn:Hstep; [|discriminate].
    destruct (runs_calls _ _ _ (onTick_runs _ _ _ _ _ _ Hstep)) as (cs1 & H1).
    destruct (runs_calls _ _ _ (proj1 (loop_runs _ _ _ _ _ _ Hloop)))
      as (cs2 & H2).
    rewrite (newCalls_trans σ σ1 σ' cs1 cs2 H1 H2).
    rewrite List.filter_app, length_app, (fires_cons _ t rest).
    rewrite (onTick_renewals _ _ _ _ _ _ Hstep), (IH _ _ _ _ Hloop).
    reflexivity.
Qed.

Lemma run_renews_once_per_lease_test_witness :
  exists w' σ',
    loop Sample.lib [pingTicker; dhcpTicker; fileTicker; pingTicker]
      Sample.fresh Sample.renewFails = Some (w', σ') /\
    length (List.filter isRenew (newCalls Sample.renewFails σ')) = 1%nat.
Proof.
  do 2 eexists. split; [vm_compute; reflexivity|].
  eapply (run_renews_once_per_lease_test Sample.lib
            [pingTicker; dhcpTicker; fileTicker; pingTicker]
            Sample.fresh Sample.renewFails).
  vm_compute. reflexivity.
Defined.
